(** * bdget: command interpreter, statement importer and goal projection

    A shallow embedding of the parts of [src/App.tsx] and
    [src/components/Settings.tsx] that turn text into domain records:
    [handleAiCommand] with its helpers, the goal-projection effect, the
    [complete] callback of the CSV import, and the state updaters.

    Modelling conventions
    - A JavaScript string is the list of its UTF-16 code units ([list N]).
    - A JavaScript number is [NaN], an infinity, or a finite value kept as an
      exact rational: IEEE rounding and the sign of zero are not modelled.
    - A [Date] is a local civil date and time of day; the local zone has a
      constant offset equal to UTC, so field-wise order is timestamp order.
    - [new Date()] is the parameter [now]; [uuidv4()] draws from a supply
      owned by the host; [Intl.NumberFormat] and the locale-aware parser and
      formatter of date-fns are host functions. *)

From Stdlib Require Import List ZArith NArith QArith Qround Qabs Ascii String Bool Lia.
From stdpp Require Import base gmap.
Import ListNotations.

Local Open Scope Z_scope.

(** ** JavaScript strings *)

Abbreviation jsstring := (list N).

Module Js.

(** Decoding of the UTF-8 bytes of a Rocq literal into code units (code
    points up to U+FFFF, which covers every literal of the sources). *)
Fixpoint utf8 (fuel : nat) (bs : list N) : jsstring :=
  match fuel with
  | O => []
  | S fuel' =>
      match bs with
      | [] => []
      | b :: r =>
          if (b <? 128)%N then b :: utf8 fuel' r
          else if (b <? 224)%N then
            match r with
            | c :: r' => ((b mod 32) * 64 + c mod 64)%N :: utf8 fuel' r'
            | [] => [b]
            end
          else
            match r with
            | c :: d :: r' =>
                ((b mod 16) * 4096 + (c mod 64) * 64 + d mod 64)%N :: utf8 fuel' r'
            | _ => [b]
            end
      end
  end.

Definition lit (s : string) : jsstring :=
  let bs := List.map N_of_ascii (list_ascii_of_string s) in
  utf8 (List.length bs) bs.

Definition dquote : N := 34%N.
Definition nbsp : N := 160%N.

Definition isDigit (c : N) : bool := ((48 <=? c) && (c <=? 57))%N.

(** WhiteSpace and LineTerminator of ECMAScript: the class [\s], also what
    [trim] and [parseFloat] strip. *)
Definition isLineTerminator (c : N) : bool :=
  ((c =? 10) || (c =? 13) || (c =? 8232) || (c =? 8233))%N.

Definition isSpace (c : N) : bool :=
  ((c =? 9) || (c =? 11) || (c =? 12) || (c =? 32) || (c =? 160)
   || (c =? 5760) || ((8192 <=? c) && (c <=? 8202)) || (c =? 8239)
   || (c =? 8287) || (c =? 12288) || (c =? 65279))%N
  || isLineTerminator c.

(** [toLowerCase] on the code units of ASCII and Latin-1; every other code
    unit is kept. *)
Definition toLowerUnit (c : N) : N :=
  if ((65 <=? c) && (c <=? 90))%N then (c + 32)%N
  else if ((192 <=? c) && (c <=? 222) && negb (c =? 215))%N then (c + 32)%N
  else c.

Definition toUpperUnit (c : N) : N :=
  if ((97 <=? c) && (c <=? 122))%N then (c - 32)%N
  else if ((224 <=? c) && (c <=? 254) && negb (c =? 247))%N then (c - 32)%N
  else c.

Definition toLowerCase (s : jsstring) : jsstring := List.map toLowerUnit s.

Fixpoint eqb (a b : jsstring) : bool :=
  match a, b with
  | [], [] => true
  | x :: a', y :: b' => (x =? y)%N && eqb a' b'
  | _, _ => false
  end.

Fixpoint startsWith (s p : jsstring) : bool :=
  match p, s with
  | [], _ => true
  | _ :: _, [] => false
  | x :: p', y :: s' => (x =? y)%N && startsWith s' p'
  end.

Fixpoint includes (s sub : jsstring) : bool :=
  startsWith s sub ||
  match s with
  | [] => false
  | _ :: s' => includes s' sub
  end.

(** [s.replace(/[class]/g, '')] *)
Definition removeAll (cls : N -> bool) (s : jsstring) : jsstring :=
  List.filter (fun c => negb (cls c)) s.

(** [s.replace(c, d)] with one-unit strings: the first occurrence only. *)
Fixpoint replaceFirst (c d : N) (s : jsstring) : jsstring :=
  match s with
  | [] => []
  | x :: s' => if (x =? c)%N then d :: s' else x :: replaceFirst c d s'
  end.

Fixpoint trimStart (s : jsstring) : jsstring :=
  match s with
  | c :: s' => if isSpace c then trimStart s' else s
  | [] => []
  end.

Definition trim (s : jsstring) : jsstring :=
  rev (trimStart (rev (trimStart s))).

(** [s.split(c)] for a one-unit separator. *)
Fixpoint splitAux (c : N) (cur : jsstring) (s : jsstring) : list jsstring :=
  match s with
  | [] => [rev cur]
  | x :: s' =>
      if (x =? c)%N then rev cur :: splitAux c [] s'
      else splitAux c (x :: cur) s'
  end.

Definition split (c : N) (s : jsstring) : list jsstring := splitAux c [] s.

(** A string in a boolean position: empty is falsy. *)
Definition truthy (s : jsstring) : bool :=
  match s with [] => false | _ :: _ => true end.

(** [a || b] on strings where [a] may be [undefined]. *)
Definition orElse (a : option jsstring) (b : jsstring) : jsstring :=
  match a with
  | Some s => if truthy s then s else b
  | None => b
  end.

(** A possibly [undefined] value inside a template literal. *)
Definition show (a : option jsstring) : jsstring :=
  match a with Some s => s | None => lit "undefined" end.

(** Decimal digits of a natural number. *)
Fixpoint uintUnits (d : Decimal.uint) : jsstring :=
  match d with
  | Decimal.Nil => []
  | Decimal.D0 r => 48%N :: uintUnits r
  | Decimal.D1 r => 49%N :: uintUnits r
  | Decimal.D2 r => 50%N :: uintUnits r
  | Decimal.D3 r => 51%N :: uintUnits r
  | Decimal.D4 r => 52%N :: uintUnits r
  | Decimal.D5 r => 53%N :: uintUnits r
  | Decimal.D6 r => 54%N :: uintUnits r
  | Decimal.D7 r => 55%N :: uintUnits r
  | Decimal.D8 r => 56%N :: uintUnits r
  | Decimal.D9 r => 57%N :: uintUnits r
  end.

Definition ofN (n : N) : jsstring := uintUnits (N.to_uint n).

Definition ofZ (z : Z) : jsstring :=
  if z <? 0 then 45%N :: ofN (Z.to_N (- z)) else ofN (Z.to_N z).

(** [String(n).padStart(w, "0")] for a natural number. *)
Definition padZeros (w : nat) (n : N) : jsstring :=
  let ds := ofN n in
  repeat 48%N (w - List.length ds) ++ ds.

End Js.

(** ** JavaScript numbers *)

Inductive number : Type :=
  | NaN
  | PosInf
  | NegInf
  | Num (q : Q).

Module Number.

Definition ofZ (z : Z) : number := Num (inject_Z z).
Definition zero : number := ofZ 0.

Definition isNaN (x : number) : bool :=
  match x with NaN => true | _ => false end.

Definition Qltb (a b : Q) : bool := negb (Qle_bool b a).

(** [x < y] *)
Definition ltb (x y : number) : bool :=
  match x, y with
  | NaN, _ | _, NaN => false
  | _, NegInf => false
  | NegInf, _ => true
  | PosInf, _ => false
  | _, PosInf => true
  | Num a, Num b => Qltb a b
  end.

(** [x <= y] *)
Definition leb (x y : number) : bool :=
  match x, y with
  | NaN, _ | _, NaN => false
  | NegInf, _ => true
  | _, PosInf => true
  | _, NegInf => false
  | PosInf, _ => false
  | Num a, Num b => Qle_bool a b
  end.

Definition gtb (x y : number) : bool := ltb y x.
Definition geb (x y : number) : bool := leb y x.

(** [x === y] *)
Definition eqb (x y : number) : bool :=
  match x, y with
  | PosInf, PosInf | NegInf, NegInf => true
  | Num a, Num b => Qeq_bool a b
  | _, _ => false
  end.

Definition neg (x : number) : number :=
  match x with
  | NaN => NaN
  | PosInf => NegInf
  | NegInf => PosInf
  | Num a => Num (Qred (- a))
  end.

Definition add (x y : number) : number :=
  match x, y with
  | NaN, _ | _, NaN => NaN
  | PosInf, NegInf | NegInf, PosInf => NaN
  | PosInf, _ | _, PosInf => PosInf
  | NegInf, _ | _, NegInf => NegInf
  | Num a, Num b => Num (Qred (a + b))
  end.

Definition sub (x y : number) : number := add x (neg y).

Definition signNeg (x : number) : bool := ltb x zero.

(** [x / y]; a zero divisor counts as [+0]. *)
Definition div (x y : number) : number :=
  match x, y with
  | NaN, _ | _, NaN => NaN
  | Num a, Num b =>
      if Qeq_bool b 0 then
        (if Qeq_bool a 0 then NaN else if Qltb a 0 then NegInf else PosInf)
      else Num (Qred (a / b))
  | Num _, _ => zero
  | _, Num b => if xorb (signNeg x) (Qltb b 0) then NegInf else PosInf
  | _, _ => NaN
  end.

(** [Math.max(x, y)] *)
Definition max (x y : number) : number :=
  match x, y with
  | NaN, _ | _, NaN => NaN
  | _, _ => if ltb x y then y else x
  end.

(** [Math.abs(x)] *)
Definition abs (x : number) : number :=
  match x with
  | NaN => NaN
  | PosInf | NegInf => PosInf
  | Num a => Num (Qred (Qabs a))
  end.

(** [Math.ceil(x)] *)
Definition ceil (x : number) : number :=
  match x with
  | Num a => ofZ (Qceiling a)
  | _ => x
  end.

(** *** [parseFloat]

    The longest prefix of the trimmed text that is a StrDecimalLiteral:
    a sign, then [Infinity] or digits with an optional fraction and an
    optional exponent; [NaN] when there is none. *)

Fixpoint digitsOf (s : jsstring) : list Z * jsstring :=
  match s with
  | c :: s' =>
      if Js.isDigit c then
        let '(ds, rest) := digitsOf s' in (Z.of_N (c - 48) :: ds, rest)
      else ([], s)
  | [] => ([], [])
  end.

Definition valueOf (ds : list Z) : Z :=
  fold_left (fun acc d => 10 * acc + d) ds 0.

Definition exponentOf (s : jsstring) : Z :=
  match s with
  | e :: s' =>
      if ((e =? 101) || (e =? 69))%N then
        let '(sgn, s'') :=
          match s' with
          | c :: t =>
              if (c =? 45)%N then (-1, t)
              else if (c =? 43)%N then (1, t) else (1, s')
          | [] => (1, s')
          end in
        sgn * valueOf (fst (digitsOf s''))
      else 0
  | [] => 0
  end.

Definition scale (m : Z) (e : Z) : Q :=
  if 0 <=? e then inject_Z (m * 10 ^ e)
  else Qred (Qmake m (Z.to_pos (10 ^ (- e)))).

Definition parseUnsigned (s : jsstring) : option Q :=
  let '(ip, r1) := digitsOf s in
  let '(fp, r2) :=
    match r1 with
    | c :: t => if (c =? 46)%N then digitsOf t else ([], r1)
    | [] => ([], r1)
    end in
  match ip, fp with
  | [], [] => None
  | _, _ =>
      Some (scale (valueOf (ip ++ fp))
                  (exponentOf r2 - Z.of_nat (List.length fp)))
  end.

Definition parseFloat (text : jsstring) : number :=
  let s := Js.trimStart text in
  let '(negative, body) :=
    match s with
    | c :: t =>
        if (c =? 45)%N then (true, t)
        else if (c =? 43)%N then (false, t) else (false, s)
    | [] => (false, s)
    end in
  if Js.startsWith body (Js.lit "Infinity") then
    (if negative then NegInf else PosInf)
  else
    match parseUnsigned body with
    | Some q => Num (if negative then Qred (- q) else q)
    | None => NaN
    end.

End Number.

(** ** Regular expressions

    The backtracking matcher of ECMAScript in continuation-passing style:
    alternatives are tried left to right, a greedy quantifier tries one more
    iteration before the continuation and a lazy one the continuation first,
    and an iteration that consumes nothing once the minimum is reached is
    rejected.  The state is the rest of the input: the patterns of the
    sources have no look-behind, back-reference or word boundary. *)

Module Regex.

Inductive regex : Type :=
  | Empty
  | Chr (c : N)
  | Cls (p : N -> bool)
  | Seq (a b : regex)
  | Alt (a b : regex)
  | Rep (min : nat) (max : option nat) (greedy : bool) (a : regex)
  | Group (i : nat) (a : regex)
  | Eol.

Definition captures := list (option jsstring).

Fixpoint setCapture (i : nat) (v : jsstring) (c : captures) : captures :=
  match i, c with
  | O, [] => [Some v]
  | O, _ :: c' => Some v :: c'
  | S i', [] => None :: setCapture i' v []
  | S i', x :: c' => x :: setCapture i' v c'
  end.

Definition consumed (s s' : jsstring) : jsstring :=
  firstn (List.length s - List.length s') s.

Section Matcher.

Variable ignoreCase : bool.

Definition canon (c : N) : N := if ignoreCase then Js.toUpperUnit c else c.

Fixpoint run (r : regex) (s : jsstring) (c : captures)
    (k : jsstring -> captures -> option captures) {struct r} : option captures :=
  match r with
  | Empty => k s c
  | Chr x =>
      match s with
      | y :: s' => if (canon x =? canon y)%N then k s' c else None
      | [] => None
      end
  | Cls p =>
      match s with
      | y :: s' => if p y then k s' c else None
      | [] => None
      end
  | Seq a b => run a s c (fun s' c' => run b s' c' k)
  | Alt a b =>
      match run a s c k with
      | Some res => Some res
      | None => run b s c k
      end
  | Group i a => run a s c (fun s' c' => k s' (setCapture i (consumed s s') c'))
  | Eol => match s with [] => k s c | _ :: _ => None end
  | Rep min max greedy a =>
      (fix rep (fuel : nat) (min : nat) (max : option nat)
           (s : jsstring) (c : captures) {struct fuel} : option captures :=
         match fuel with
         | O => None
         | S fuel' =>
             match max with
             | Some O => k s c
             | _ =>
                 let d := fun s' c' =>
                   if Nat.eqb min 0 && Nat.eqb (List.length s') (List.length s)
                   then None
                   else rep fuel' (Nat.pred min) (option_map Nat.pred max) s' c' in
                 if negb (Nat.eqb min 0) then run a s c d
                 else if greedy then
                   match run a s c d with
                   | Some res => Some res
                   | None => k s c
                   end
                 else
                   match k s c with
                   | Some res => Some res
                   | None => run a s c d
                   end
             end
         end) (min + List.length s + 1)%nat min max s c
  end.

(** [RegExp.prototype.exec] without the [g] flag: the leftmost start that
    matches; index 0 of the result is the whole match. *)
Fixpoint exec (r : regex) (s : jsstring) : option captures :=
  match run r s [] (fun s' c => Some (setCapture 0 (consumed s s') c)) with
  | Some res => Some res
  | None =>
      match s with
      | [] => None
      | _ :: s' => exec r s'
      end
  end.

End Matcher.

(** [m?.[i]] *)
Definition group (i : nat) (m : option captures) : option jsstring :=
  match m with
  | Some c => nth i c None
  | None => None
  end.

(** Pattern syntax *)
Definition str (s : string) : regex :=
  fold_right (fun c r => Seq (Chr c) r) Empty (Js.lit s).
Definition seqs (rs : list regex) : regex := fold_right Seq Empty rs.
Fixpoint alts (rs : list regex) : regex :=
  match rs with
  | [] => Empty
  | [r] => r
  | r :: rs' => Alt r (alts rs')
  end.
Definition star (a : regex) : regex := Rep 0 None true a.
Definition plus (a : regex) : regex := Rep 1 None true a.
Definition opt (a : regex) : regex := Rep 0 (Some 1%nat) true a.
Definition lazyStar (a : regex) : regex := Rep 0 None false a.
Definition times (lo hi : nat) (a : regex) : regex := Rep lo (Some hi) true a.
Definition digit : regex := Cls Js.isDigit.
Definition dot : regex := Cls (fun c => negb (Js.isLineTerminator c)).
Definition oneOf (s : string) : regex :=
  Cls (fun c => existsb (N.eqb c) (Js.lit s)).

End Regex.

(** ** Dates

    The [Date] of JavaScript with the functions of date-fns that the sources
    call, on local civil fields.  [month] counts from 0 as [getMonth] does;
    [time] is the time of day in milliseconds. *)

Module Date.

Record t : Type := make { year : Z; month : Z; day : Z; time : Z }.

Definition isLeapYear (y : Z) : bool :=
  ((y mod 4 =? 0) && negb (y mod 100 =? 0)) || (y mod 400 =? 0).

Definition getDaysInMonth (y m : Z) : Z :=
  if m =? 1 then (if isLeapYear y then 29 else 28)
  else if (m =? 3) || (m =? 5) || (m =? 8) || (m =? 10) then 30
  else 31.

Definition valid (d : t) : Prop :=
  0 <= month d < 12 /\ 1 <= day d <= getDaysInMonth (year d) (month d)
  /\ 0 <= time d < 86400000.

Definition succDay (d : t) : t :=
  if day d <? getDaysInMonth (year d) (month d)
  then make (year d) (month d) (day d + 1) (time d)
  else if month d <? 11 then make (year d) (month d + 1) 1 (time d)
  else make (year d + 1) 0 1 (time d).

Definition predDay (d : t) : t :=
  if 1 <? day d then make (year d) (month d) (day d - 1) (time d)
  else if 0 <? month d
  then make (year d) (month d - 1) (getDaysInMonth (year d) (month d - 1)) (time d)
  else make (year d - 1) 11 31 (time d).

(** date-fns [addDays], that is [setDate(getDate() + amount)]. *)
Definition addDays (d : t) (amount : Z) : t :=
  if 0 <=? amount then Nat.iter (Z.to_nat amount) succDay d
  else Nat.iter (Z.to_nat (- amount)) predDay d.

(** Days since 1970-01-01. *)
Definition dayNumber (d : t) : Z :=
  let m := month d + 1 in
  let y := if m <=? 2 then year d - 1 else year d in
  let era := y / 400 in
  let yoe := y - era * 400 in
  let doy := (153 * (if 2 <? m then m - 3 else m + 9) + 2) / 5 + day d - 1 in
  let doe := yoe * 365 + yoe / 4 - yoe / 100 + doy in
  era * 146097 + doe - 719468.

Definition getTime (d : t) : Z := dayNumber d * 86400000 + time d.

(** [getDay]: 0 is Sunday. *)
Definition getDay (d : t) : Z := (dayNumber d + 4) mod 7.

(** The time values a [Date] can hold; beyond, the date is invalid. *)
Definition inRange (d : t) : bool := Z.abs (getTime d) <=? 8640000000000000.

(** [a <= b] and [a >= b] on dates: the order of the time values. *)
Definition leb (a b : t) : bool :=
  (year a <? year b) || ((year a =? year b) &&
  ((month a <? month b) || ((month a =? month b) &&
  ((day a <? day b) || ((day a =? day b) && (time a <=? time b)))))).

Definition geb (a b : t) : bool := leb b a.

(** [Date.prototype.setMonth(m)]: the day of the month is kept and
    overflows into the following month. *)
Definition setMonth (d : t) (m : Z) : t :=
  addDays (make (year d + m / 12) (m mod 12) 1 (time d)) (day d - 1).

(** date-fns [addMonths]: the day of the month is capped at the length of
    the target month. *)
Definition addMonths (d : t) (amount : Z) : t :=
  let mi := 12 * year d + month d + amount in
  let y := mi / 12 in
  let m := mi mod 12 in
  let daysInMonth := getDaysInMonth y m in
  make y m (if daysInMonth <=? day d then daysInMonth else day d) (time d).

Definition subMonths (d : t) (amount : Z) : t := addMonths d (- amount).

Definition startOfMonth (d : t) : t := make (year d) (month d) 1 0.

Definition endOfMonth (d : t) : t :=
  make (year d) (month d) (getDaysInMonth (year d) (month d)) 86399999.

(** [startOfWeek(d, { weekStartsOn: 1 })] *)
Definition startOfWeek (d : t) : t :=
  let dow := getDay d in
  let diff := (if dow <? 1 then 7 else 0) + dow - 1 in
  let r := addDays d (- diff) in
  make (year r) (month r) (day r) 0.

Definition nextDay (d : t) (dow : Z) : t :=
  let delta := dow - getDay d in
  addDays d (if delta <=? 0 then delta + 7 else delta).

Definition previousDay (d : t) (dow : Z) : t :=
  let delta := getDay d - dow in
  addDays d (- (if delta <=? 0 then delta + 7 else delta)).

Definition nextSaturday (d : t) : t := nextDay d 6.
Definition previousTuesday (d : t) : t := previousDay d 2.

(** [format(d, "yyyy-MM-dd")] *)
Definition formatIsoDate (d : t) : jsstring :=
  let y := if 0 <? year d then year d else 1 - year d in
  Js.padZeros 4 (Z.to_N y) ++ Js.lit "-" ++ Js.padZeros 2 (Z.to_N (month d + 1))
  ++ Js.lit "-" ++ Js.padZeros 2 (Z.to_N (day d)).

Definition monthAbbreviations : list string :=
  ["Jan"; "Feb"; "Mar"; "Apr"; "May"; "Jun";
   "Jul"; "Aug"; "Sep"; "Oct"; "Nov"; "Dec"]%string.

(** [format(d, "MMM d")] *)
Definition formatMonthDay (d : t) : jsstring :=
  Js.lit (nth (Z.to_nat (month d)) monthAbbreviations EmptyString)
  ++ Js.lit " " ++ Js.ofZ (day d).

(** [toISOString] *)
Definition toISOString (d : t) : jsstring :=
  let y :=
    if (0 <=? year d) && (year d <=? 9999) then Js.padZeros 4 (Z.to_N (year d))
    else (if year d <? 0 then Js.lit "-" else Js.lit "+")
         ++ Js.padZeros 6 (Z.to_N (Z.abs (year d))) in
  let ms := time d in
  y ++ Js.lit "-" ++ Js.padZeros 2 (Z.to_N (month d + 1))
  ++ Js.lit "-" ++ Js.padZeros 2 (Z.to_N (day d))
  ++ Js.lit "T" ++ Js.padZeros 2 (Z.to_N (ms / 3600000))
  ++ Js.lit ":" ++ Js.padZeros 2 (Z.to_N (ms / 60000 mod 60))
  ++ Js.lit ":" ++ Js.padZeros 2 (Z.to_N (ms / 1000 mod 60))
  ++ Js.lit "." ++ Js.padZeros 3 (Z.to_N (ms mod 1000)) ++ Js.lit "Z".

(** date-fns [parseISO] on the calendar form [YYYY-MM-DD], the form in
    which the application stores every date; [None] is the invalid date,
    which is also the answer to any other text. *)
Definition digitValue (c : N) : option Z :=
  if Js.isDigit c then Some (Z.of_N (c - 48)) else None.

Definition number2 (a b : N) : option Z :=
  match digitValue a, digitValue b with
  | Some x, Some y => Some (10 * x + y)
  | _, _ => None
  end.

Definition parseISO (s : jsstring) : option t :=
  match s with
  | [y1; y2; y3; y4; d1; m1; m2; d2; a1; a2] =>
      if ((d1 =? 45) && (d2 =? 45))%N then
        match number2 y1 y2, number2 y3 y4, number2 m1 m2, number2 a1 a2 with
        | Some yh, Some yl, Some m, Some a =>
            let y := 100 * yh + yl in
            if (1 <=? m) && (m <=? 12) && (1 <=? a)
               && (a <=? getDaysInMonth y (m - 1))
            then Some (make y (m - 1) a 0)
            else None
        | _, _, _, _ => None
        end
      else None
  | _ => None
  end.

End Date.

(** ** Domain records ([src/types.ts]) *)

Module Transaction.
Record t : Type := make {
  id : jsstring;
  date : jsstring;
  description : jsstring;
  amount : number;
  category : jsstring }.
End Transaction.

(** [Omit<Transaction, "id">] *)
Module NewTransaction.
Record t : Type := make {
  date : jsstring;
  description : jsstring;
  amount : number;
  category : jsstring }.
End NewTransaction.

Module Goal.
Record t : Type := make {
  id : jsstring;
  name : jsstring;
  targetAmount : number;
  currentAmount : number;
  deadline : option jsstring;
  estimatedCompletionDate : option jsstring }.

(** [{ ...goal, estimatedCompletionDate: eta }] *)
Definition withEta (g : t) (eta : option jsstring) : t :=
  make (id g) (name g) (targetAmount g) (currentAmount g) (deadline g) eta.
End Goal.

(** [Omit<Goal, "id" | "currentAmount" | "estimatedCompletionDate">] *)
Module NewGoal.
Record t : Type := make {
  name : jsstring;
  targetAmount : number;
  deadline : option jsstring }.
End NewGoal.

Module PredictedIncome.
Record t : Type := make {
  id : jsstring;
  date : jsstring;
  source : jsstring;
  amount : number }.
End PredictedIncome.

Inductive Sender : Type := user | ai.

Record ChatMessage : Type := { sender : Sender; text : jsstring }.

(** A call either returns or throws; the state it leaves is kept beside. *)
Inductive outcome (A : Type) : Type :=
  | Returned (a : A)
  | Threw (error : string).
Arguments Returned {A} a.
Arguments Threw {A} error.

(** ** The host: what the application takes from its environment *)

Class Host : Type := {
  (** [new Intl.NumberFormat("cs-CZ", { style: "currency", currency }).format(amount)];
      [None] when the constructor throws. *)
  intlFormat : number -> jsstring -> option jsstring;
  (** date-fns [parse(text, "P", reference)]; [None] when the result is
      invalid or the call throws. *)
  parseP : jsstring -> Date.t -> option Date.t;
  (** date-fns [format(date, "PPP")] *)
  formatPPP : Date.t -> jsstring }.

(** ** [src/App.tsx] *)

Module App.

(** [amount.toFixed(2)], for magnitudes below 1e21. *)
Definition toFixed2 (x : number) : jsstring :=
  match x with
  | NaN => Js.lit "NaN"
  | PosInf => Js.lit "Infinity"
  | NegInf => Js.lit "-Infinity"
  | Num q =>
      let n := Qfloor (Qabs q * inject_Z 100 + (1 # 2)) in
      (if Number.Qltb q 0 then Js.lit "-" else [])
      ++ Js.ofZ (n / 100) ++ Js.lit "." ++ Js.padZeros 2 (Z.to_N (n mod 100))
  end.

Definition formatCurrency `{Host} (amount : number) (currencyCode : jsstring) : jsstring :=
  match intlFormat amount currencyCode with
  | Some s => s
  | None => toFixed2 amount ++ Js.lit " " ++ currencyCode
  end.

Record AppState : Type := makeState {
  transactions : list Transaction.t;
  goals : list Goal.t;
  predictedIncome : list PredictedIncome.t;
  selectedCurrency : jsstring;
  chatHistory : list ChatMessage }.

Definition setTransactions (f : list Transaction.t -> list Transaction.t)
    (st : AppState) : AppState :=
  makeState (f (transactions st)) (goals st) (predictedIncome st)
            (selectedCurrency st) (chatHistory st).

Definition setGoals (f : list Goal.t -> list Goal.t) (st : AppState) : AppState :=
  makeState (transactions st) (f (goals st)) (predictedIncome st)
            (selectedCurrency st) (chatHistory st).

Definition setPredictedIncome (f : list PredictedIncome.t -> list PredictedIncome.t)
    (st : AppState) : AppState :=
  makeState (transactions st) (goals st) (f (predictedIncome st))
            (selectedCurrency st) (chatHistory st).

Definition setChatHistory (f : list ChatMessage -> list ChatMessage)
    (st : AppState) : AppState :=
  makeState (transactions st) (goals st) (predictedIncome st)
            (selectedCurrency st) (f (chatHistory st)).

(** *** Goal Reactor (the effect on [transactions]) *)

Definition remainingAmount (goal : Goal.t) : number :=
  Number.max Number.zero (Number.sub (Goal.targetAmount goal) (Goal.currentAmount goal)).

Definition threeMonthsAgo (now : Date.t) : Date.t :=
  Date.startOfMonth (Date.subMonths now 3).

Definition isRecent (now : Date.t) (t : Transaction.t) : bool :=
  match Date.parseISO (Transaction.date t) with
  | Some d => Date.geb d (threeMonthsAgo now)
  | None => false
  end.

Definition recentTransactions (now : Date.t) (transactions : list Transaction.t)
    : list Transaction.t :=
  List.filter (isRecent now) transactions.

Definition sumAmounts (ts : list Transaction.t) : number :=
  fold_left (fun sum t => Number.add sum (Transaction.amount t)) ts Number.zero.

Definition totalRecentIncome (now : Date.t) (transactions : list Transaction.t) : number :=
  sumAmounts (List.filter (fun t => Number.gtb (Transaction.amount t) Number.zero)
                          (recentTransactions now transactions)).

Definition totalRecentExpenses (now : Date.t) (transactions : list Transaction.t) : number :=
  sumAmounts (List.filter (fun t => Number.ltb (Transaction.amount t) Number.zero)
                          (recentTransactions now transactions)).

Definition averageMonthlySavings (now : Date.t) (transactions : list Transaction.t)
    : number :=
  Number.div (Number.add (totalRecentIncome now transactions)
                         (totalRecentExpenses now transactions))
             (Number.ofZ 3).

(** [addMonths(new Date(), monthsNeeded)]: invalid when the amount is not
    finite or the result leaves the range of time values. *)
Definition estimatedDate (now : Date.t) (monthsNeeded : number) : option Date.t :=
  match monthsNeeded with
  | Num q =>
      let d := Date.addMonths now (Qfloor q) in
      if Date.inRange d then Some d else None
  | _ => None
  end.

(** The callback of [goals.map]; [toISOString] throws on an invalid date. *)
Definition projectGoal (now : Date.t) (transactions : list Transaction.t)
    (goal : Goal.t) : outcome Goal.t :=
  let remaining := remainingAmount goal in
  if Number.eqb remaining Number.zero then
    Returned (Goal.withEta goal (Some (Date.toISOString now)))
  else
    let savings := averageMonthlySavings now transactions in
    if Number.leb savings Number.zero then
      Returned (Goal.withEta goal None)
    else
      let monthsNeeded := Number.ceil (Number.div remaining savings) in
      match estimatedDate now monthsNeeded with
      | Some d => Returned (Goal.withEta goal (Some (Date.toISOString d)))
      | None => Threw "RangeError"
      end.

(** [updatedGoals]: the map stops at the first goal that throws. *)
Fixpoint projectGoals (goals : list Goal.t) (transactions : list Transaction.t)
    (now : Date.t) : outcome (list Goal.t) :=
  match goals with
  | [] => Returned []
  | goal :: rest =>
      match projectGoal now transactions goal with
      | Threw e => Threw e
      | Returned goal' =>
          match projectGoals rest transactions now with
          | Threw e => Threw e
          | Returned rest' => Returned (goal' :: rest')
          end
      end
  end.

(** Equality of the [JSON.stringify] images. *)
Definition jsonNumberEqb (x y : number) : bool :=
  match x, y with
  | Num a, Num b => Qeq_bool a b
  | Num _, _ | _, Num _ => false
  | _, _ => true
  end.

Definition jsonOptionEqb (a b : option jsstring) : bool :=
  match a, b with
  | Some x, Some y => Js.eqb x y
  | None, None => true
  | _, _ => false
  end.

Definition jsonGoalEqb (a b : Goal.t) : bool :=
  Js.eqb (Goal.id a) (Goal.id b) && Js.eqb (Goal.name a) (Goal.name b)
  && jsonNumberEqb (Goal.targetAmount a) (Goal.targetAmount b)
  && jsonNumberEqb (Goal.currentAmount a) (Goal.currentAmount b)
  && jsonOptionEqb (Goal.deadline a) (Goal.deadline b)
  && jsonOptionEqb (Goal.estimatedCompletionDate a) (Goal.estimatedCompletionDate b).

Fixpoint jsonGoalsEqb (a b : list Goal.t) : bool :=
  match a, b with
  | [], [] => true
  | x :: a', y :: b' => jsonGoalEqb x y && jsonGoalsEqb a' b'
  | _, _ => false
  end.

Definition goalReactor (now : Date.t) (st : AppState) : outcome unit * AppState :=
  match projectGoals (goals st) (transactions st) now with
  | Threw e => (Threw e, st)
  | Returned updatedGoals =>
      if negb (jsonGoalsEqb updatedGoals (goals st))
      then (Returned tt, setGoals (fun _ => updatedGoals) st)
      else (Returned tt, st)
  end.

(** *** State handlers; each [uuidv4()] of the source is an argument. *)




Definition handleAddGoal (uuid : jsstring) (goal : NewGoal.t) (st : AppState)
    : Goal.t * AppState :=
  let newGoal := Goal.make uuid (NewGoal.name goal) (NewGoal.targetAmount goal)
                           Number.zero (NewGoal.deadline goal) None in
  (newGoal, setGoals (fun prev => prev ++ [newGoal]) st).

Definition handleUpdateGoal (updatedGoal : Goal.t) (st : AppState) : AppState :=
  setGoals (List.map (fun g =>
    if Js.eqb (Goal.id g) (Goal.id updatedGoal) then updatedGoal else g)) st.

Definition handleDeleteGoal (goalId : jsstring) (st : AppState) : AppState :=
  setGoals (List.filter (fun g => negb (Js.eqb (Goal.id g) goalId))) st.

Definition handleEditTransaction (updatedTransaction : Transaction.t)
    (st : AppState) : AppState :=
  setTransactions (List.map (fun t =>
    if Js.eqb (Transaction.id t) (Transaction.id updatedTransaction)
    then updatedTransaction else t)) st.

Definition handleDeleteTransaction (transactionId : jsstring) (st : AppState)
    : AppState :=
  setTransactions (List.filter (fun t =>
    negb (Js.eqb (Transaction.id t) transactionId))) st.

(** *** [handleAiCommand] *)

Section Interpreter.

Context `{Host}.

Import Regex.

(** The classes [[ ,\s\u00A0]] and [[ ,\s]] *)
Definition groupingClassGoal (c : N) : bool :=
  (c =? 32)%N || (c =? 44)%N || Js.isSpace c || (c =? Js.nbsp)%N.
Definition groupingClass (c : N) : bool :=
  (c =? 32)%N || (c =? 44)%N || Js.isSpace c.

Definition decimalPart : regex := opt (seqs [oneOf ".,"; plus digit]).

(** 1. Goal creation *)

(** [/(?:goal|for|to buy) (.*?)(?: for | with | costing | of | target | deadline|$)/i] *)
Definition nameMatch (lowerCommand : jsstring) : option captures :=
  exec true
    (seqs [alts [str "goal"; str "for"; str "to buy"]; str " ";
           Group 1 (lazyStar dot);
           alts [str " for "; str " with "; str " costing "; str " of ";
                 str " target "; str " deadline"; Eol]])
    lowerCommand.

(** [/(\d{1,3}(?:[ ,\s\u00A0]\d{3})*(?:[.,]\d+)?|\d+(?:[.,]\d+)?)(?: ?czk| ?kč| ?eur| ?usd| ?\$| ?€)?/i] *)
Definition goalAmountMatch (lowerCommand : jsstring) : option captures :=
  exec true
    (seqs [Group 1 (alts
             [seqs [times 1 3 digit;
                    star (seqs [Cls groupingClassGoal; times 3 3 digit]);
                    decimalPart];
              seqs [plus digit; decimalPart]]);
           opt (alts [seqs [opt (str " "); str "czk"];
                      seqs [opt (str " "); str "kč"];
                      seqs [opt (str " "); str "eur"];
                      seqs [opt (str " "); str "usd"];
                      seqs [opt (str " "); str "$"];
                      seqs [opt (str " "); str "€"]])])
    lowerCommand.

(** [/(?:by|deadline) (.*?)(?:$)/i] *)
Definition deadlineMatch (lowerCommand : jsstring) : option captures :=
  exec true
    (seqs [alts [str "by"; str "deadline"]; str " "; Group 1 (lazyStar dot); Eol])
    lowerCommand.

Definition goalName (lowerCommand : jsstring) : jsstring :=
  Js.orElse (option_map Js.trim (group 1 (nameMatch lowerCommand))) (Js.lit "New Goal").

Definition goalAmountStr (lowerCommand : jsstring) : option jsstring :=
  option_map (fun s => Js.replaceFirst 44 46 (Js.removeAll groupingClassGoal s))
             (group 1 (goalAmountMatch lowerCommand)).

Definition goalAmount (lowerCommand : jsstring) : number :=
  match goalAmountStr lowerCommand with
  | Some s => if Js.truthy s then Number.parseFloat s else Number.zero
  | None => Number.zero
  end.

Definition goalDeadline (now : Date.t) (lowerCommand : jsstring) : option jsstring :=
  match group 1 (deadlineMatch lowerCommand) with
  | Some s =>
      if Js.truthy s then
        match parseP (Js.trim s) now with
        | Some parsedDeadline => Some (Date.formatIsoDate parsedDeadline)
        | None => None
        end
      else None
  | None => None
  end.

Definition goalGuidance : jsstring :=
  Js.lit "Sorry, I couldn't understand the goal details. Please specify a name and amount, like 'add goal New Car for 100000'. You can optionally add 'by YYYY-MM-DD'.".

Definition goalCreation (now : Date.t) (uuid : jsstring) (lowerCommand : jsstring)
    (st : AppState) : outcome jsstring * AppState :=
  let deadline := goalDeadline now lowerCommand in
  if Number.gtb (goalAmount lowerCommand) Number.zero
     && negb (Js.eqb (goalName lowerCommand) (Js.lit "New Goal"))
  then
    let newGoalData :=
      NewGoal.make (goalName lowerCommand) (goalAmount lowerCommand)
        (match deadline with
         | Some d => if Js.truthy d then Some d else None
         | None => None
         end) in
    let '(newGoal, st') := handleAddGoal uuid newGoalData st in
    let head :=
      Js.lit "OK, I've added the goal " ++ [Js.dquote] ++ Goal.name newGoal
      ++ [Js.dquote] ++ Js.lit " for "
      ++ formatCurrency (Goal.targetAmount newGoal) (selectedCurrency st) in
    let tail := Js.lit ". I'll estimate the completion date." in
    match deadline with
    | Some d =>
        if Js.truthy d then
          match Date.parseISO d with
          | Some parsed =>
              (Returned (head ++ Js.lit " with a deadline of " ++ formatPPP parsed ++ tail), st')
          | None => (Threw "RangeError", st')
          end
        else (Returned (head ++ tail), st')
    | None => (Returned (head ++ tail), st')
    end
  else (Returned goalGuidance, st).

(** 2. Spending analysis *)

(** [/(?:on|for) (.*?)(?: last month| this month|\?)?$/i] *)
Definition keywordMatch (lowerCommand : jsstring) : option captures :=
  exec true
    (seqs [alts [str "on"; str "for"]; str " "; Group 1 (lazyStar dot);
           opt (alts [str " last month"; str " this month"; str "?"]); Eol])
    lowerCommand.

Definition keyword (lowerCommand : jsstring) : option jsstring :=
  option_map Js.trim (group 1 (keywordMatch lowerCommand)).

Definition targetDate (now : Date.t) (lowerCommand : jsstring) : Date.t :=
  if Js.includes lowerCommand (Js.lit "last month")
  then Date.setMonth now (Date.month now - 1)
  else now.

Definition hasKeyword (k : option jsstring) : bool :=
  match k with Some s => Js.truthy s | None => false end.

Definition mentions (field : jsstring) (k : option jsstring) : bool :=
  Js.truthy field && Js.includes (Js.toLowerCase field) (Js.show k).

(** The body of [transactions.forEach] on [totalSpent] and
    [matchingTransactions]. *)
Definition spendingStep (monthStart monthEnd : Date.t) (k : option jsstring)
    (acc : number * nat) (t : Transaction.t) : number * nat :=
  match Date.parseISO (Transaction.date t) with
  | Some tDate =>
      if Date.geb tDate monthStart && Date.leb tDate monthEnd
         && Number.ltb (Transaction.amount t) Number.zero
      then
        if negb (hasKeyword k) || mentions (Transaction.category t) k
           || mentions (Transaction.description t) k
        then (Number.add (fst acc) (Transaction.amount t), S (snd acc))
        else acc
      else acc
  | None => acc
  end.

Definition spendingAnalysis (now : Date.t) (lowerCommand : jsstring) (st : AppState)
    : outcome jsstring * AppState :=
  let lastMonthMatch := Js.includes lowerCommand (Js.lit "last month") in
  let k := keyword lowerCommand in
  let monthStart := Date.startOfMonth (targetDate now lowerCommand) in
  let monthEnd := Date.endOfMonth (targetDate now lowerCommand) in
  let '(totalSpent, matchingTransactions) :=
    fold_left (spendingStep monthStart monthEnd k) (transactions st) (Number.zero, O) in
  let timeFrame := if lastMonthMatch then Js.lit "last month" else Js.lit "this month" in
  let spent := formatCurrency (Number.abs totalSpent) (selectedCurrency st) in
  if hasKeyword k then
    if (0 <? matchingTransactions)%nat then
      (Returned (Js.lit "You spent " ++ spent ++ Js.lit " on " ++ [Js.dquote]
                 ++ Js.show k ++ [Js.dquote] ++ Js.lit " " ++ timeFrame
                 ++ Js.lit " across " ++ Js.ofN (N.of_nat matchingTransactions)
                 ++ Js.lit " transactions."), st)
    else
      (Returned (Js.lit "I couldn't find any spending related to " ++ [Js.dquote]
                 ++ Js.show k ++ [Js.dquote] ++ Js.lit " " ++ timeFrame ++ Js.lit "."), st)
  else
    (Returned (Js.lit "You spent a total of " ++ spent ++ Js.lit " " ++ timeFrame
               ++ Js.lit "."), st).

(** 3. Add transaction *)

(** [/(\d{1,3}(?:[ ,\s]\d{3})*(?:[.,]\d+)?|\d+(?:[.,]\d+)?)/] *)
Definition amountMatch (lowerCommand : jsstring) : option captures :=
  exec false
    (Group 1 (alts
       [seqs [times 1 3 digit;
              star (seqs [Cls groupingClass; times 3 3 digit]);
              decimalPart];
        seqs [plus digit; decimalPart]]))
    lowerCommand.

(** [/(?:expense|income|spent|received)(?: of | )\d.*? (?:for|on) (.*?)(?: on | tomorrow| today| yesterday| next| last)?$/] *)
Definition descriptionMatch (lowerCommand : jsstring) : option captures :=
  exec false
    (seqs [alts [str "expense"; str "income"; str "spent"; str "received"];
           alts [str " of "; str " "]; digit; lazyStar dot; str " ";
           alts [str "for"; str "on"]; str " "; Group 1 (lazyStar dot);
           opt (alts [str " on "; str " tomorrow"; str " today"; str " yesterday";
                      str " next"; str " last"]);
           Eol])
    lowerCommand.

Definition weekTarget : regex :=
  alts [str "week"; str "weekend"; str "saturday"; str "sunday"; str "monday";
        str "tuesday"; str "wednesday"; str "thursday"; str "friday"].

(** [/(?: on | at | for )?(today|tomorrow|yesterday|next (?:week|...)|last (?:week|...)|\d{1,2}[./-]\d{1,2}(?:[./-]\d{2,4})?)$/] *)
Definition dateMatch (lowerCommand : jsstring) : option captures :=
  exec false
    (seqs [opt (alts [str " on "; str " at "; str " for "]);
           Group 1 (alts
             [str "today"; str "tomorrow"; str "yesterday";
              seqs [str "next "; weekTarget];
              seqs [str "last "; weekTarget];
              seqs [times 1 2 digit; oneOf "./-"; times 1 2 digit;
                    opt (seqs [oneOf "./-"; times 2 4 digit])]]);
           Eol])
    lowerCommand.

Definition amountStr (lowerCommand : jsstring) : option jsstring :=
  option_map (fun s => Js.replaceFirst 44 46 (Js.removeAll groupingClass s))
             (group 1 (amountMatch lowerCommand)).

Definition amountVal (lowerCommand : jsstring) : number :=
  match amountStr lowerCommand with
  | Some s => if Js.truthy s then Number.parseFloat s else Number.zero
  | None => Number.zero
  end.

Definition description (lowerCommand : jsstring) : jsstring :=
  Js.orElse (option_map Js.trim (group 1 (descriptionMatch lowerCommand)))
            (Js.lit "Transaction").

Definition transactionDate (now : Date.t) (lowerCommand : jsstring) : Date.t :=
  match group 1 (dateMatch lowerCommand) with
  | Some matched =>
      if Js.truthy matched then
        let dateStr := Js.toLowerCase matched in
        if Js.eqb dateStr (Js.lit "today") then now
        else if Js.eqb dateStr (Js.lit "tomorrow") then Date.addDays now 1
        else if Js.eqb dateStr (Js.lit "yesterday") then Date.addDays now (-1)
        else if Js.startsWith dateStr (Js.lit "next week")
        then Date.addDays (Date.startOfWeek (Date.addDays now 7)) 4
        else if Js.startsWith dateStr (Js.lit "last week")
        then Date.addDays (Date.startOfWeek (Date.addDays now (-7))) 4
        else if Js.eqb dateStr (Js.lit "next weekend") then Date.nextSaturday now
        else if Js.eqb dateStr (Js.lit "last weekend")
        then Date.previousTuesday (Date.startOfWeek now)
        else
          match parseP dateStr now with
          | Some parsed => parsed
          | None => now
          end
      else now
  | None => now
  end.

Definition isExpense (lowerCommand : jsstring) : bool :=
  Js.includes lowerCommand (Js.lit "expense") || Js.includes lowerCommand (Js.lit "spent").

Definition newTransaction (now : Date.t) (uuid : jsstring) (lowerCommand : jsstring)
    : Transaction.t :=
  let finalAmount :=
    if isExpense lowerCommand then Number.neg (amountVal lowerCommand)
    else amountVal lowerCommand in
  Transaction.make uuid (Date.formatIsoDate (transactionDate now lowerCommand))
    (description lowerCommand) finalAmount (Js.lit "Uncategorized").

Definition transactionGuidance : jsstring :=
  Js.lit "Sorry, I couldn't understand the amount or description for the transaction. Please try again, like 'add expense 500 for groceries tomorrow'.".

Definition addTransaction (now : Date.t) (uuid : jsstring) (lowerCommand : jsstring)
    (st : AppState) : outcome jsstring * AppState :=
  if Number.gtb (amountVal lowerCommand) Number.zero then
    let txn := newTransaction now uuid lowerCommand in
    (* Use handleEditTransaction to add/update (it handles both) *)
    let st' := handleEditTransaction txn st in
    (Returned
       (Js.lit "OK, added "
        ++ (if isExpense lowerCommand then Js.lit "expense" else Js.lit "income")
        ++ Js.lit " of "
        ++ formatCurrency (Number.abs (Transaction.amount txn)) (selectedCurrency st)
        ++ Js.lit " for " ++ [Js.dquote] ++ description lowerCommand ++ [Js.dquote]
        ++ Js.lit " on " ++ Date.formatMonthDay (transactionDate now lowerCommand)
        ++ Js.lit "."), st')
  else (Returned transactionGuidance, st).

(** Default / fallback *)
Definition capabilitySummary : jsstring :=
  Js.lit "Sorry, I can currently help with adding goals (e.g., 'add goal Car for 100k by 2026-12-31'), adding transactions (e.g., 'add expense 500 for groceries tomorrow'), or analyzing spending (e.g., 'how much did I spend on fuel last month?').".

(** The chain of branches on [lowerCommand]. *)
Definition dispatch (now : Date.t) (uuid : jsstring) (lowerCommand : jsstring)
    (st : AppState) : outcome jsstring * AppState :=
  if Js.includes lowerCommand (Js.lit "create goal")
     || Js.includes lowerCommand (Js.lit "add goal")
  then goalCreation now uuid lowerCommand st
  else if Js.includes lowerCommand (Js.lit "how much")
          && (Js.includes lowerCommand (Js.lit "spend")
              || Js.includes lowerCommand (Js.lit "spent"))
  then spendingAnalysis now lowerCommand st
  else if Js.includes lowerCommand (Js.lit "add expense")
          || Js.includes lowerCommand (Js.lit "add income")
          || Js.includes lowerCommand (Js.lit "spent")
          || Js.includes lowerCommand (Js.lit "received")
  then addTransaction now uuid lowerCommand st
  else (Returned capabilitySummary, st).

(** [now] is the clock during the call and [uuid] what [uuidv4()] returns
    if the call reaches it (no branch calls it twice). *)
Definition handleAiCommand (now : Date.t) (uuid : jsstring) (command : jsstring)
    (st : AppState) : outcome jsstring * AppState :=
  let st1 := setChatHistory (fun prev => prev ++ [Build_ChatMessage user command]) st in
  let lowerCommand := Js.toLowerCase command in
  match dispatch now uuid lowerCommand st1 with
  | (Returned responseText, st2) =>
      (Returned responseText,
       setChatHistory (fun prev => prev ++ [Build_ChatMessage ai responseText]) st2)
  | (Threw e, st2) => (Threw e, st2)
  end.

End Interpreter.

End App.

(** ** [src/components/Settings.tsx]: the [complete] callback of the import *)

Module Settings.

(** A parsed row: the object of PapaParse, from header to field. *)
Abbreviation row := (gmap (list N) (list N)).

Inductive warning : Type :=
  | InvalidAmount (r : row)
  | MissingDataOrCurrencyMismatch (r : row).

Definition present (field : option jsstring) : bool :=
  match field with Some s => Js.truthy s | None => false end.

Definition sameCurrency (currency : option jsstring) (selectedCurrency : jsstring) : bool :=
  match currency with Some c => Js.eqb c selectedCurrency | None => false end.

Definition isoDate (date : jsstring) : jsstring :=
  let dateParts := Js.split 46 date in
  Js.show (nth_error dateParts 2) ++ Js.lit "-" ++ Js.show (nth_error dateParts 1)
  ++ Js.lit "-" ++ Js.show (nth_error dateParts 0).

(** [amountStr.replace(/[\s\u00A0]/g, '').replace(',', '.')] *)
Definition spaceClass (c : N) : bool := Js.isSpace c || (c =? Js.nbsp)%N.

Definition cleanedAmountStr (amountStr : jsstring) : jsstring :=
  Js.replaceFirst 44 46 (Js.removeAll spaceClass amountStr).

Definition amount (amountStr : jsstring) : number :=
  Number.parseFloat (cleanedAmountStr amountStr).

(** The body of [results.data.forEach] on [transactions] and the console. *)
Definition rowStep (selectedCurrency : jsstring)
    (acc : list NewTransaction.t * list warning) (r : row)
    : list NewTransaction.t * list warning :=
  let date := r !! Js.lit "Datum zaúčtování" in
  let description := r !! Js.lit "Popis operace" in
  let amountStr := r !! Js.lit "Částka" in
  let currency := r !! Js.lit "Měna" in
  match date, description, amountStr with
  | Some date', Some description', Some amountStr' =>
      if present date && present description && present amountStr
         && sameCurrency currency selectedCurrency
      then
        if negb (Number.isNaN (amount amountStr'))
        then (fst acc ++ [NewTransaction.make (isoDate date') description'
                            (amount amountStr') (Js.lit "Uncategorized")],
              snd acc)
        else (fst acc, snd acc ++ [InvalidAmount r])
      else (fst acc, snd acc ++ [MissingDataOrCurrencyMismatch r])
  | _, _, _ => (fst acc, snd acc ++ [MissingDataOrCurrencyMismatch r])
  end.

Record ImportResult : Type := {
  (** the argument of [onImportTransactions] *)
  imported : list NewTransaction.t;
  (** the [console.warn] calls *)
  warnings : list warning;
  (** the text of the [alert] *)
  alert : jsstring }.

Definition complete (selectedCurrency : jsstring) (data : list row) : ImportResult :=
  let '(transactions, warned) := fold_left (rowStep selectedCurrency) data ([], []) in
  {| imported := transactions;
     warnings := warned;
     alert := Js.lit "Imported " ++ Js.ofN (N.of_nat (List.length transactions))
              ++ Js.lit " transactions." |}.


End Settings.

(** ** The monthly overview of [App] (the [useMemo] on [transactions]) *)

Module Dashboard.





End Dashboard.

(** ** The forms that call the handlers *)

Inductive ModalMode : Type := modeAdd | modeEdit.

(** [handleAddPredictedIncome] of [src/App.tsx] *)
Definition handleAddPredictedIncome (uuid : jsstring) (date source : jsstring)
    (amount : number) (st : App.AppState) : App.AppState :=
  App.setPredictedIncome
    (fun prev => prev ++ [PredictedIncome.make uuid date source amount]) st.

(** [d || undefined] on a text field *)
Definition orUndefined (d : jsstring) : option jsstring :=
  if Js.truthy d then Some d else None.

(** [GoalsView]: the goal form and its [handleSave] and [handleDelete]. *)
Module GoalsView.

Record Form : Type := makeForm {
  isModalOpen : bool;
  modalMode : ModalMode;
  currentGoal : option Goal.t;
  goalName : jsstring;
  targetAmount : jsstring;
  currentAmount : jsstring;
  deadline : jsstring }.

Definition close (f : Form) : Form :=
  makeForm false (modalMode f) (currentGoal f) (goalName f) (targetAmount f)
           (currentAmount f) (deadline f).

Definition target (f : Form) : number := Number.parseFloat (targetAmount f).

Definition current (f : Form) : number :=
  match modalMode f with
  | modeEdit => Number.parseFloat (currentAmount f)
  | modeAdd => Number.zero
  end.

Definition canSave (f : Form) : bool :=
  Js.truthy (goalName f) && negb (Number.isNaN (target f))
  && Number.gtb (target f) Number.zero
  && (match modalMode f with modeAdd => true | modeEdit => false end
      || negb (Number.isNaN (current f))).

(** [uuid] is what [uuidv4()] returns inside [onAddGoal]. *)
Definition handleSave (uuid : jsstring) (f : Form) (st : App.AppState)
    : Form * App.AppState :=
  if canSave f then
    match modalMode f with
    | modeAdd =>
        (close f,
         snd (App.handleAddGoal uuid
                (NewGoal.make (goalName f) (target f) (orUndefined (deadline f))) st))
    | modeEdit =>
        match currentGoal f with
        | Some g =>
            (close f,
             App.handleUpdateGoal
               (Goal.make (Goal.id g) (goalName f) (target f) (current f)
                          (orUndefined (deadline f)) (Goal.estimatedCompletionDate g))
               st)
        | None => (close f, st)
        end
    end
  else (f, st).

(** [confirmed] is the answer of [window.confirm]. *)
Definition handleDelete (confirmed : bool) (f : Form) (st : App.AppState)
    : Form * App.AppState :=
  match modalMode f, currentGoal f with
  | modeEdit, Some g =>
      if confirmed then (close f, App.handleDeleteGoal (Goal.id g) st) else (f, st)
  | _, _ => (f, st)
  end.

End GoalsView.

(** [BudgetCalendarView]: the entry form and its [handleSave] and
    [handleDelete]. *)
Module BudgetCalendarView.

Inductive EntryType : Type := income | expense.

(** A calendar event: its [type] with its [resource]. *)
Inductive CalendarEvent : Type :=
  | TransactionEvent (resource : Transaction.t)
  | PredictedEvent (resource : PredictedIncome.t).

Record Form : Type := makeForm {
  isModalOpen : bool;
  modalMode : ModalMode;
  selectedDate : option Date.t;
  selectedEvent : option CalendarEvent;
  entryType : EntryType;
  description : jsstring;
  amount : jsstring;
  category : jsstring;
  source : jsstring }.

Definition close (f : Form) : Form :=
  makeForm false (modalMode f) (selectedDate f) (selectedEvent f) (entryType f)
           (description f) (amount f) (category f) (source f).

Definition startOfDay (d : Date.t) : Date.t :=
  Date.make (Date.year d) (Date.month d) (Date.day d) 0.

(** [checkDate > today], both at the beginning of their day. *)
Definition isFutureDate (now : Date.t) (selectedDate : option Date.t) : bool :=
  match selectedDate with
  | None => false
  | Some d => negb (Date.leb (startOfDay d) (startOfDay now))
  end.

Definition invalidAmount : jsstring := Js.lit "Please enter a valid positive amount.".
Definition missingSource : jsstring :=
  Js.lit "Please enter a source for the predicted income.".
Definition missingDescription : jsstring := Js.lit "Please enter a description.".
Definition editingUnsupported : jsstring :=
  Js.lit "Editing predicted income details is not fully supported yet. Please delete and add a new one if needed.".
Definition deletingUnsupported : jsstring :=
  Js.lit "Deleting predicted income is not supported yet.".

Record Saved : Type := {
  alerted : option jsstring;
  form : Form;
  state : App.AppState }.

(** [uuid] is what the one [uuidv4()] of the call returns, in the form or in
    [handleAddPredictedIncome]. *)
Definition handleSave (now : Date.t) (uuid : jsstring) (f : Form) (st : App.AppState)
    : Saved :=
  match selectedDate f with
  | None => Build_Saved None f st
  | Some date =>
      let parsedAmount := Number.parseFloat (amount f) in
      if Number.isNaN parsedAmount || Number.leb parsedAmount Number.zero then
        Build_Saved (Some invalidAmount) f st
      else
        let finalAmount :=
          match entryType f with
          | expense => Number.neg parsedAmount
          | income => parsedAmount
          end in
        let dateString := Date.formatIsoDate date in
        match modalMode f with
        | modeAdd =>
            if match entryType f with income => true | expense => false end
               && isFutureDate now (selectedDate f)
            then
              if negb (Js.truthy (source f)) then Build_Saved (Some missingSource) f st
              else Build_Saved None (close f)
                     (handleAddPredictedIncome uuid dateString (source f) finalAmount st)
            else
              if negb (Js.truthy (description f))
              then Build_Saved (Some missingDescription) f st
              else
                let newTransaction :=
                  Transaction.make uuid dateString (description f) finalAmount
                                   (category f) in
                (* Use onEditTransaction to add new *)
                Build_Saved None (close f) (App.handleEditTransaction newTransaction st)
        | modeEdit =>
            match selectedEvent f with
            | Some (TransactionEvent resource) =>
                if negb (Js.truthy (description f))
                then Build_Saved (Some missingDescription) f st
                else
                  Build_Saved None (close f)
                    (App.handleEditTransaction
                       (Transaction.make (Transaction.id resource) dateString
                                         (description f) finalAmount (category f))
                       st)
            | Some (PredictedEvent _) =>
                if negb (Js.truthy (source f)) then Build_Saved (Some missingSource) f st
                else Build_Saved (Some editingUnsupported) (close f) st
            | None => Build_Saved None (close f) st
            end
        end
  end.

(** [confirmed] is the answer of [window.confirm]. *)
Definition handleDelete (confirmed : bool) (f : Form) (st : App.AppState) : Saved :=
  match modalMode f, selectedEvent f with
  | modeEdit, Some (TransactionEvent resource) =>
      if confirmed
      then Build_Saved None (close f)
             (App.handleDeleteTransaction (Transaction.id resource) st)
      else Build_Saved None f st
  | modeEdit, Some (PredictedEvent _) => Build_Saved (Some deletingUnsupported) f st
  | _, _ => Build_Saved None f st
  end.

End BudgetCalendarView.

(** ** The properties, in the words of the specification *)

Module Spec.

(** Sequencing of two calls that may throw. *)
Definition andThen {A B : Type} (x : outcome A) (f : A -> outcome B) : outcome B :=
  match x with
  | Returned a => f a
  | Threw e => Threw e
  end.

(** Intents of the command interpreter, on the lowercased text. *)
Definition isCreateGoal (lowered : jsstring) : Prop :=
  Js.includes lowered (Js.lit "create goal") = true
  \/ Js.includes lowered (Js.lit "add goal") = true.

Definition isQuerySpending (lowered : jsstring) : Prop :=
  Js.includes lowered (Js.lit "how much") = true
  /\ (Js.includes lowered (Js.lit "spend") = true
      \/ Js.includes lowered (Js.lit "spent") = true).

Definition isAddTransaction (lowered : jsstring) : Prop :=
  Js.includes lowered (Js.lit "add expense") = true
  \/ Js.includes lowered (Js.lit "add income") = true
  \/ Js.includes lowered (Js.lit "spent") = true
  \/ Js.includes lowered (Js.lit "received") = true.

(** What [handleAiCommand] does around a branch: the user turn before, the
    assistant turn after a response. *)
Definition userTurn (command : jsstring) (st : App.AppState) : App.AppState :=
  App.setChatHistory (fun prev => prev ++ [Build_ChatMessage user command]) st.

Definition assistantTurn (r : outcome jsstring * App.AppState)
    : outcome jsstring * App.AppState :=
  match r with
  | (Returned responseText, st) =>
      (Returned responseText,
       App.setChatHistory (fun prev => prev ++ [Build_ChatMessage ai responseText]) st)
  | (Threw e, st) => (Threw e, st)
  end.

(** Two goals that differ at most in [estimatedCompletionDate]. *)
Definition sameButEta (g g' : Goal.t) : Prop :=
  Goal.id g' = Goal.id g /\ Goal.name g' = Goal.name g
  /\ Goal.targetAmount g' = Goal.targetAmount g
  /\ Goal.currentAmount g' = Goal.currentAmount g
  /\ Goal.deadline g' = Goal.deadline g.

(** Month count of a date, for comparing calendar months. *)
Definition monthIndex (d : Date.t) : Z := 12 * Date.year d + Date.month d.



Definition negative (t : Transaction.t) : bool :=
  Number.ltb (Transaction.amount t) Number.zero.


(** A row the import accepts: date, description and amount are there and
    not empty, the currency is the selected one, the amount parses. *)
Definition acceptable (selectedCurrency : jsstring) (r : Settings.row) : Prop :=
  (exists date, r !! Js.lit "Datum zaúčtování" = Some date /\ date <> [])
  /\ (exists description, r !! Js.lit "Popis operace" = Some description
                          /\ description <> [])
  /\ (exists amountStr, r !! Js.lit "Částka" = Some amountStr /\ amountStr <> []
                        /\ Number.isNaN (Settings.amount amountStr) = false)
  /\ r !! Js.lit "Měna" = Some selectedCurrency.

(** The transaction an accepted row becomes. *)
Definition normalized (r : Settings.row) : NewTransaction.t :=
  NewTransaction.make
    (Settings.isoDate (default [] (r !! Js.lit "Datum zaúčtování")))
    (default [] (r !! Js.lit "Popis operace"))
    (Settings.amount (default [] (r !! Js.lit "Částka")))
    (Js.lit "Uncategorized").





(** The import in relational form: [Accepts cur data out k] when [out] are
    the transactions of the acceptable rows of [data], in order, and [k]
    rows of [data] are not acceptable. *)
Inductive Accepts (selectedCurrency : jsstring)
    : list Settings.row -> list NewTransaction.t -> nat -> Prop :=
  | AcceptsNil : Accepts selectedCurrency [] [] O
  | AcceptsRow r data out k :
      acceptable selectedCurrency r ->
      Accepts selectedCurrency data out k ->
      Accepts selectedCurrency (r :: data) (normalized r :: out) k
  | AcceptsSkip r data out k :
      ~ acceptable selectedCurrency r ->
      Accepts selectedCurrency data out k ->
      Accepts selectedCurrency (r :: data) out (S k).

End Spec.

(** ** Further notions for stating properties *)

Module Extra.

(** A text without any decimal digit. *)
Definition digitless (s : jsstring) : Prop :=
  Forall (fun c => Js.isDigit c = false) s.

(** The transactions dated, validly, in the calendar month of [ref]. *)
Definition sameMonth (d ref : Date.t) : bool :=
  (Date.year d =? Date.year ref) && (Date.month d =? Date.month ref).

Definition inMonthOf (ref : Date.t) (t : Transaction.t) : bool :=
  match Date.parseISO (Transaction.date t) with
  | Some d => sameMonth d ref
  | None => false
  end.




(** A text without the separator [.] of the bank's dates. *)
Definition dotless (s : jsstring) : Prop := Forall (fun c => c <> 46%N) s.

(** Whether the zero-padded decimal text of [n], two or four digits wide,
    reads back as [n]. *)
Definition reads2 (n : N) : bool :=
  match Js.padZeros 2 n with
  | [a; b] =>
      match Date.number2 a b with
      | Some v => v =? Z.of_N n
      | None => false
      end
  | _ => false
  end.

Definition reads4 (n : N) : bool :=
  match Js.padZeros 4 n with
  | [a; b; c; d] =>
      match Date.number2 a b, Date.number2 c d with
      | Some h, Some l => 100 * h + l =? Z.of_N n
      | _, _ => false
      end
  | _ => false
  end.

End Extra.

(** ** Sample inputs, for running the model *)

Module Sample.

(** A host without [Intl] (the fallback format is used) and without locale
    dates. *)
Definition plainHost : Host :=
  {| intlFormat := fun _ _ => None;
     parseP := fun _ _ => None;
     formatPPP := Date.formatIsoDate |}.

Definition state (ledger : list Transaction.t) (goals : list Goal.t) : App.AppState :=
  App.makeState ledger goals [] (Js.lit "CZK") [].

Definition entry (id date description : string) (amount : Z) : Transaction.t :=
  Transaction.make (Js.lit id) (Js.lit date) (Js.lit description)
                   (Number.ofZ amount) (Js.lit "Uncategorized").

Definition goal (id name : string) (target current : Z) : Goal.t :=
  Goal.make (Js.lit id) (Js.lit name) (Number.ofZ target) (Number.ofZ current)
            None None.

Definition csvRow (date description amount currency : string) : Settings.row :=
  list_to_map [(Js.lit "Datum zaúčtování", Js.lit date);
               (Js.lit "Popis operace", Js.lit description);
               (Js.lit "Částka", Js.lit amount);
               (Js.lit "Měna", Js.lit currency)].


Definition midApril : Date.t := Date.make 2025 3 15 36000000.

End Sample.

(** ** Proofs *)

Section StringFacts.

Lemma eqb_eq (a b : jsstring) : Js.eqb a b = true <-> a = b.
Proof.
  revert b; induction a as [|x a IH]; intros [|y b]; simpl; split;
    try congruence; try discriminate.
  - intros Hxy. apply andb_prop in Hxy as [Hx Ha].
    apply N.eqb_eq in Hx. apply IH in Ha. congruence.
  - intros Heq. injection Heq as -> ->.
    rewrite N.eqb_refl. simpl. now apply IH.
Qed.

Lemma eqb_refl (a : jsstring) : Js.eqb a a = true.
Proof. now apply eqb_eq. Qed.

Lemma eqb_neq (a b : jsstring) : Js.eqb a b = false <-> a <> b.
Proof.
  split.
  - intros Hf Heq. apply eqb_eq in Heq. congruence.
  - intros Hne. destruct (Js.eqb a b) eqn:E; [|reflexivity].
    apply eqb_eq in E. contradiction.
Qed.

End StringFacts.

(** *** Goal projection *)

Section Projection.

Variables (now : Date.t) (T : list Transaction.t).

Lemma remaining_withEta (g : Goal.t) (e : option jsstring) :
  App.remainingAmount (Goal.withEta g e) = App.remainingAmount g.
Proof. reflexivity. Qed.

Lemma projectGoal_withEta (g : Goal.t) (e : option jsstring) :
  App.projectGoal now T (Goal.withEta g e) = App.projectGoal now T g.
Proof.
  unfold App.projectGoal. rewrite remaining_withEta.
  destruct (Number.eqb _ _); [reflexivity|].
  destruct (Number.leb _ _); [reflexivity|].
  destruct (App.estimatedDate _ _); reflexivity.
Qed.

Lemma projectGoal_shape (g g' : Goal.t) :
  App.projectGoal now T g = Returned g' ->
  exists e, g' = Goal.withEta g e.
Proof.
  unfold App.projectGoal.
  destruct (Number.eqb _ _); [intros [= <-]; eauto|].
  destruct (Number.leb _ _); [intros [= <-]; eauto|].
  destruct (App.estimatedDate _ _); [intros [= <-]; eauto|discriminate].
Qed.

Lemma projectGoal_stable (g g' : Goal.t) :
  App.projectGoal now T g = Returned g' ->
  App.projectGoal now T g' = Returned g'.
Proof.
  intros Hg. destruct (projectGoal_shape _ _ Hg) as [e ->].
  now rewrite projectGoal_withEta.
Qed.

Lemma projectGoals_stable (G G' : list Goal.t) :
  App.projectGoals G T now = Returned G' ->
  App.projectGoals G' T now = Returned G'.
Proof.
  revert G'; induction G as [|g G IH]; simpl; intros G'.
  - intros [= <-]. reflexivity.
  - destruct (App.projectGoal now T g) as [g'|] eqn:Hg; [|discriminate].
    destruct (App.projectGoals G T now) as [R|] eqn:HR; [|discriminate].
    intros [= <-]. simpl.
    rewrite (projectGoal_stable _ _ Hg), (IH _ eq_refl). reflexivity.
Qed.

Lemma sameButEta_withEta (g : Goal.t) (e : option jsstring) :
  Spec.sameButEta g (Goal.withEta g e).
Proof. repeat split. Qed.

Lemma projectGoals_frame (G G' : list Goal.t) :
  App.projectGoals G T now = Returned G' ->
  Forall2 Spec.sameButEta G G'.
Proof.
  revert G'; induction G as [|g G IH]; simpl; intros G'.
  - intros [= <-]. constructor.
  - destruct (App.projectGoal now T g) as [g'|] eqn:Hg; [|discriminate].
    destruct (App.projectGoals G T now) as [R|] eqn:HR; [|discriminate].
    intros [= <-]. constructor; [|now apply IH].
    destruct (projectGoal_shape _ _ Hg) as [e ->]. apply sameButEta_withEta.
Qed.

End Projection.

(** C8. Projecting the goals a second time, with the same transactions and
    the same clock, gives what the first projection gave (and throws
    exactly when the first one throws). *)
Theorem projectGoals_idempotent (G : list Goal.t) (T : list Transaction.t)
    (now : Date.t) :
  Spec.andThen (App.projectGoals G T now) (fun G' => App.projectGoals G' T now)
  = App.projectGoals G T now.
Proof.
  destruct (App.projectGoals G T now) as [G'|e] eqn:HG; simpl; [|reflexivity].
  now apply projectGoals_stable with (G := G).
Qed.

(** C9. The goal reactor leaves the transactions, the predicted income, the
    currency and the chat as they were, and the goal list it leaves has the
    goals of the old one in the same order, each changed at most in its
    [estimatedCompletionDate]. *)
Theorem goalReactor_frame (now : Date.t) (st : App.AppState) :
  let st' := snd (App.goalReactor now st) in
  App.transactions st' = App.transactions st
  /\ App.predictedIncome st' = App.predictedIncome st
  /\ App.selectedCurrency st' = App.selectedCurrency st
  /\ App.chatHistory st' = App.chatHistory st
  /\ List.length (App.goals st') = List.length (App.goals st)
  /\ Forall2 Spec.sameButEta (App.goals st) (App.goals st').
Proof.
  assert (Hrefl : forall G, Forall2 Spec.sameButEta G G).
  { induction G; constructor; [repeat split|assumption]. }
  unfold App.goalReactor.
  destruct (App.projectGoals _ _ _) as [G'|e] eqn:HG; simpl.
  - pose proof (projectGoals_frame _ _ _ _ HG) as HF.
    destruct (negb _); simpl; repeat split; auto.
    symmetry. eapply Forall2_length. exact HF.
  - repeat split; auto.
Qed.

(** *** Import into the ledger *)

Section Ledger.

Variable uuids : nat -> jsstring.



End Ledger.


(** *** Intents *)

(** C6. The branch of [handleAiCommand] is chosen on the lowercased text,
    first match first: goal creation when it contains "create goal" or
    "add goal"; else spending analysis when it contains "how much" and
    "spend" or "spent"; else the transaction branch when it contains
    "add expense", "add income", "spent" or "received"; else the fixed
    capability summary, with no list of the state changed. *)
Theorem intent_first_match_wins `{Host} (now : Date.t) (uuid command : jsstring)
    (st : App.AppState) :
  let lowered := Js.toLowerCase command in
  let st1 := Spec.userTurn command st in
  let result := App.handleAiCommand now uuid command st in
  (Spec.isCreateGoal lowered ->
     result = Spec.assistantTurn (App.goalCreation now uuid lowered st1))
  /\ (~ Spec.isCreateGoal lowered -> Spec.isQuerySpending lowered ->
     result = Spec.assistantTurn (App.spendingAnalysis now lowered st1))
  /\ (~ Spec.isCreateGoal lowered -> ~ Spec.isQuerySpending lowered ->
      Spec.isAddTransaction lowered ->
     result = Spec.assistantTurn (App.addTransaction now uuid lowered st1))
  /\ (~ Spec.isCreateGoal lowered -> ~ Spec.isQuerySpending lowered ->
      ~ Spec.isAddTransaction lowered ->
     fst result = Returned App.capabilitySummary
     /\ App.transactions (snd result) = App.transactions st
     /\ App.goals (snd result) = App.goals st
     /\ App.predictedIncome (snd result) = App.predictedIncome st
     /\ App.chatHistory (snd result)
        = App.chatHistory st ++ [Build_ChatMessage user command;
                                 Build_ChatMessage ai App.capabilitySummary]).
Proof.
  intros lowered st1 result.
  assert (Hresult : result = Spec.assistantTurn (App.dispatch now uuid lowered st1))
    by reflexivity.
  rewrite Hresult. clear Hresult result.
  unfold App.dispatch, Spec.isCreateGoal, Spec.isQuerySpending,
    Spec.isAddTransaction.
  generalize (App.goalCreation now uuid lowered st1) as goalBranch.
  generalize (App.spendingAnalysis now lowered st1) as spendingBranch.
  generalize (App.addTransaction now uuid lowered st1) as transactionBranch.
  intros transactionBranch spendingBranch goalBranch.
  generalize (Js.includes lowered (Js.lit "create goal")) as b1.
  generalize (Js.includes lowered (Js.lit "add goal")) as b2.
  generalize (Js.includes lowered (Js.lit "how much")) as b3.
  generalize (Js.includes lowered (Js.lit "spend")) as b4.
  generalize (Js.includes lowered (Js.lit "spent")) as b5.
  generalize (Js.includes lowered (Js.lit "add expense")) as b6.
  generalize (Js.includes lowered (Js.lit "add income")) as b7.
  generalize (Js.includes lowered (Js.lit "received")) as b8.
  intros b8 b7 b6 b5 b4 b3 b2 b1.
  assert (Hlast : Spec.assistantTurn (Returned App.capabilitySummary, st1)
                  = (Returned App.capabilitySummary,
                     App.setChatHistory
                       (fun prev => prev ++ [Build_ChatMessage ai App.capabilitySummary])
                       st1)) by reflexivity.
  assert (Hchat : forall (a b : ChatMessage) l, (l ++ [a]) ++ [b] = l ++ [a; b])
    by (intros; now rewrite <- app_assoc).
  repeat apply conj.
  - intros [-> | ->]; [reflexivity|]. now rewrite orb_true_r.
  - intros Hg [-> Hs].
    destruct b1; [tauto|]. destruct b2; [tauto|].
    destruct Hs as [-> | ->]; [reflexivity|]. now rewrite orb_true_r.
  - intros Hg Hq Ht.
    destruct b1; [tauto|]. destruct b2; [tauto|].
    assert (Hq' : b3 && (b4 || b5) = false).
    { destruct b3; [|reflexivity]. destruct b4; [tauto|]. destruct b5; tauto. }
    cbn [orb]. rewrite Hq'.
    destruct b6; [reflexivity|]. destruct b7; [reflexivity|].
    destruct b5; [reflexivity|]. destruct b8; [reflexivity|].
    exfalso. destruct Ht as [?|[?|[?|?]]]; discriminate.
  - intros Hg Hq Ht.
    destruct b1; [tauto|]. destruct b2; [tauto|].
    assert (Hq' : b3 && (b4 || b5) = false).
    { destruct b3; [|reflexivity]. destruct b4; [tauto|]. destruct b5; tauto. }
    cbn [orb]. rewrite Hq'.
    destruct b6; [tauto|]. destruct b7; [tauto|].
    destruct b5; [tauto|]. destruct b8; [tauto|].
    cbn [orb]. rewrite Hlast. cbn [fst snd].
    unfold st1, Spec.userTurn, App.setChatHistory.
    cbn [App.transactions App.goals App.predictedIncome App.chatHistory].
    rewrite Hchat. repeat split.
Qed.
(** *** Statement import *)

Section StatementImport.

Variable selectedCurrency : jsstring.

Lemma truthy_nonempty (s : jsstring) : Js.truthy s = true <-> s <> [].
Proof. destruct s; simpl; split; congruence. Qed.

(** One row: it is acceptable and its transaction is pushed, or it is not
    and one warning is logged. *)
Lemma rowStep_cases (acc : list NewTransaction.t * list Settings.warning)
    (r : Settings.row) :
  (Spec.acceptable selectedCurrency r
   /\ Settings.rowStep selectedCurrency acc r
      = (fst acc ++ [Spec.normalized r], snd acc))
  \/ (~ Spec.acceptable selectedCurrency r
      /\ exists w, Settings.rowStep selectedCurrency acc r
                   = (fst acc, snd acc ++ [w])).
Proof.
  unfold Settings.rowStep, Spec.acceptable, Spec.normalized, Settings.present,
    Settings.sameCurrency.
  set (kd := Js.lit "Datum zaúčtování").
  set (kp := Js.lit "Popis operace").
  set (ka := Js.lit "Částka").
  set (km := Js.lit "Měna").
  destruct (r !! kd) as [d|] eqn:Hd;
    [|right; split; [intros [[? [? _]] _]; discriminate|eauto]].
  destruct (r !! kp) as [p|] eqn:Hp;
    [|right; split; [intros [_ [[? [? _]] _]]; discriminate|eauto]].
  destruct (r !! ka) as [a|] eqn:Ha;
    [|right; split; [intros [_ [_ [[? [? _]] _]]]; discriminate|eauto]].
  destruct (Js.truthy d) eqn:Td; cbn [andb];
    [|right; split; [|eauto]; intros [[? [[= <-] Hn]] _];
      apply truthy_nonempty in Hn; congruence].
  destruct (Js.truthy p) eqn:Tp; cbn [andb];
    [|right; split; [|eauto]; intros [_ [[? [[= <-] Hn]] _]];
      apply truthy_nonempty in Hn; congruence].
  destruct (Js.truthy a) eqn:Ta; cbn [andb];
    [|right; split; [|eauto]; intros [_ [_ [[? [[= <-] [Hn _]]] _]]];
      apply truthy_nonempty in Hn; congruence].
  destruct (r !! km) as [m|] eqn:Hm;
    [|right; split; [intros [_ [_ [_ ?]]]; discriminate|eauto]].
  destruct (Js.eqb m selectedCurrency) eqn:Em;
    [|right; split; [|eauto]; intros [_ [_ [_ [= ->]]]];
      rewrite eqb_refl in Em; discriminate].
  apply eqb_eq in Em. subst m.
  destruct (Number.isNaN (Settings.amount a)) eqn:En; cbn [negb].
  - right. split; [|eauto].
    intros [_ [_ [[? [[= <-] [_ Hn]]] _]]]. congruence.
  - left. split; [|reflexivity].
    repeat split; eauto; eexists; repeat split; eauto;
      now apply truthy_nonempty.
Qed.

Lemma fold_rowStep (data : list Settings.row)
    (acc : list NewTransaction.t * list Settings.warning) :
  exists out ws,
    fold_left (Settings.rowStep selectedCurrency) data acc
    = (fst acc ++ out, snd acc ++ ws)
    /\ Spec.Accepts selectedCurrency data out (List.length ws).
Proof.
  revert acc; induction data as [|r data IH]; intros acc; simpl.
  - exists [], []. rewrite !app_nil_r. split; [now destruct acc|constructor].
  - destruct (rowStep_cases acc r) as [[Hacc ->]|[Hacc [w ->]]].
    + destruct (IH (fst acc ++ [Spec.normalized r], snd acc)) as (out & ws & E & A).
      exists (Spec.normalized r :: out), ws. rewrite E. cbn [fst snd].
      rewrite <- app_assoc. split; [reflexivity|now constructor].
    + destruct (IH (fst acc, snd acc ++ [w])) as (out & ws & E & A).
      exists out, (w :: ws). rewrite E. cbn [fst snd].
      rewrite <- app_assoc. split; [reflexivity|now constructor].
Qed.

Lemma Accepts_In (data : list Settings.row) (out : list NewTransaction.t) (k : nat) :
  Spec.Accepts selectedCurrency data out k ->
  (forall t, In t out <->
     exists r, In r data /\ Spec.acceptable selectedCurrency r
               /\ t = Spec.normalized r)
  /\ (List.length out + k = List.length data)%nat.
Proof.
  induction 1 as [|r data out k Hr HA [IH1 IH2]|r data out k Hr HA [IH1 IH2]].
  - split; [|reflexivity]. intros t; split; [intros []|intros (r & [] & _)].
  - split; [|simpl; lia]. intros t; split.
    + intros [<-|Ht]; [exists r; simpl; auto|].
      apply IH1 in Ht as (r' & ? & ? & ?). exists r'; simpl; auto.
    + intros (r' & [<-|Hin] & Hacc & ->); [now left|].
      right. apply IH1. eauto.
  - split; [|simpl; lia]. intros t; split.
    + intros Ht. apply IH1 in Ht as (r' & ? & ? & ?). exists r'; simpl; auto.
    + intros (r' & [<-|Hin] & Hacc & ->); [contradiction|].
      apply IH1. eauto.
Qed.

End StatementImport.

(** C7 (amended). The import hands over exactly the transactions of the
    acceptable rows, in the order of the rows: a row is acceptable when its
    date, description and amount are there and not empty, its currency is the
    selected one and its amount parses.  Every other row is left out and one
    console warning is logged for it.  The function is total, so no row
    raises an error.  The only count reported is that of the imported rows,
    in the alert. *)
Theorem import_accepts_exactly (selectedCurrency : jsstring)
    (data : list Settings.row) :
  let result := Settings.complete selectedCurrency data in
  Spec.Accepts selectedCurrency data (Settings.imported result)
               (List.length (Settings.warnings result))
  /\ (forall t, In t (Settings.imported result) <->
        exists r, In r data /\ Spec.acceptable selectedCurrency r
                  /\ t = Spec.normalized r)
  /\ (List.length (Settings.imported result)
      + List.length (Settings.warnings result) = List.length data)%nat
  /\ Settings.alert result
     = Js.lit "Imported " ++ Js.ofN (N.of_nat (List.length (Settings.imported result)))
       ++ Js.lit " transactions.".
Proof.
  intros result. unfold result, Settings.complete.
  destruct (fold_rowStep selectedCurrency data ([], [])) as (out & ws & E & A).
  rewrite E. cbn [fst snd app Settings.imported Settings.warnings Settings.alert].
  destruct (Accepts_In _ _ _ _ A) as [HI HL].
  repeat split; auto; apply HI.
Qed.

(** *** The window of the projection *)

Section Window.

Variable now : Date.t.







End Window.



(** *** Amounts *)

Section Amounts.







End Amounts.


(** *** The interpreter on the scenarios of the specification *)

Section Scenarios.

Context `{Host}.

Lemma handleEditTransaction_length (txn : Transaction.t) (st : App.AppState) :
  List.length (App.transactions (App.handleEditTransaction txn st))
  = List.length (App.transactions st).
Proof. unfold App.handleEditTransaction. simpl. apply List.length_map. Qed.

(** C1. "add expense 500 for groceries tomorrow" on 2025-01-10: the record
    of the claim is built (amount -500, description "groceries", date
    2025-01-11) and the response confirms it, but [handleEditTransaction]
    only replaces entries that already have the new id: the ledger keeps its
    length, and an empty ledger stays empty. *)
Theorem add_expense_not_recorded (ms : Z) (uuid : jsstring) (st : App.AppState) :
  let now := Date.make 2025 0 10 ms in
  let command := Js.lit "add expense 500 for groceries tomorrow" in
  let record :=
    Transaction.make uuid (Js.lit "2025-01-11") (Js.lit "groceries")
                     (Num (-500 # 1)) (Js.lit "Uncategorized") in
  let result := App.handleAiCommand now uuid command st in
  App.newTransaction now uuid command = record
  /\ fst result
     = Returned (Js.lit "OK, added expense of "
                 ++ App.formatCurrency (Num (500 # 1)) (App.selectedCurrency st)
                 ++ Js.lit " for " ++ [Js.dquote] ++ Js.lit "groceries"
                 ++ [Js.dquote] ++ Js.lit " on Jan 11.")
  /\ App.transactions (snd result)
     = List.map (fun t => if Js.eqb (Transaction.id t) uuid then record else t)
                (App.transactions st)
  /\ List.length (App.transactions (snd result)) = List.length (App.transactions st)
  /\ (forall goals income currency chat,
        App.transactions
          (snd (App.handleAiCommand now uuid command
                  (App.makeState [] goals income currency chat))) = []).
Proof.
  intros now command record result.
  assert (Hrecord : App.newTransaction now uuid command = record)
    by (vm_compute; reflexivity).
  assert (Hrun : forall st0,
    App.handleAiCommand now uuid command st0
    = Spec.assistantTurn (App.addTransaction now uuid command (Spec.userTurn command st0))).
  { intros st0. unfold App.handleAiCommand.
    replace (Js.toLowerCase command) with command by (vm_compute; reflexivity).
    unfold App.dispatch.
    replace (Js.includes command (Js.lit "create goal")) with false
      by (vm_compute; reflexivity).
    replace (Js.includes command (Js.lit "add goal")) with false
      by (vm_compute; reflexivity).
    replace (Js.includes command (Js.lit "how much")) with false
      by (vm_compute; reflexivity).
    replace (Js.includes command (Js.lit "add expense")) with true
      by (vm_compute; reflexivity).
    reflexivity. }
  assert (Hadd : forall st0,
    App.addTransaction now uuid command st0
    = (Returned (Js.lit "OK, added expense of "
                 ++ App.formatCurrency (Num (500 # 1)) (App.selectedCurrency st0)
                 ++ Js.lit " for " ++ [Js.dquote] ++ Js.lit "groceries"
                 ++ [Js.dquote] ++ Js.lit " on Jan 11."),
       App.handleEditTransaction record st0)).
  { intros st0. unfold App.addTransaction. rewrite Hrecord.
    replace (App.amountVal command) with (Num (500 # 1)) by (vm_compute; reflexivity).
    replace (Number.gtb (Num (500 # 1)) Number.zero) with true
      by (vm_compute; reflexivity).
    replace (App.isExpense command) with true by (vm_compute; reflexivity).
    replace (App.description command) with (Js.lit "groceries")
      by (vm_compute; reflexivity).
    replace (Date.formatMonthDay (App.transactionDate now command))
      with (Js.lit "Jan 11") by (vm_compute; reflexivity).
    replace (Number.abs (Transaction.amount record)) with (Num (500 # 1))
      by (vm_compute; reflexivity).
    rewrite <- ?app_assoc. reflexivity. }
  unfold result. repeat apply conj.
  - exact Hrecord.
  - rewrite Hrun, Hadd. reflexivity.
  - rewrite Hrun, Hadd. reflexivity.
  - rewrite Hrun, Hadd. cbn [Spec.assistantTurn snd].
    apply List.length_map.
  - intros. rewrite Hrun, Hadd. reflexivity.
Qed.

(** C4. "add goal New Car for 100000" on an empty goal list: one goal is
    created with [currentAmount] 0 and the response shows its formatted
    target, but the name is taken from the lowercased text ("new car") and
    the first alternative of the amount pattern stops after three digits, so
    the target is 100. *)
Theorem add_goal_scenario (now : Date.t) (uuid : jsstring)
    (ledger : list Transaction.t) (income : list PredictedIncome.t)
    (currency : jsstring) (chat : list ChatMessage) :
  let command := Js.lit "add goal New Car for 100000" in
  let response :=
    Js.lit "OK, I've added the goal " ++ [Js.dquote] ++ Js.lit "new car"
    ++ [Js.dquote] ++ Js.lit " for "
    ++ App.formatCurrency (Num (100 # 1)) currency
    ++ Js.lit ". I'll estimate the completion date." in
  App.handleAiCommand now uuid command (App.makeState ledger [] income currency chat)
  = (Returned response,
     App.makeState ledger
       [Goal.make uuid (Js.lit "new car") (Num (100 # 1)) (Num (0 # 1)) None None]
       income currency
       (chat ++ [Build_ChatMessage user command; Build_ChatMessage ai response])).
Proof.
  intros command response.
  set (lowered := Js.lit "add goal new car for 100000").
  unfold App.handleAiCommand.
  replace (Js.toLowerCase command) with lowered by (vm_compute; reflexivity).
  unfold App.dispatch.
  replace (Js.includes lowered (Js.lit "add goal")) with true
    by (vm_compute; reflexivity).
  rewrite orb_true_r. unfold App.goalCreation.
  assert (Hdeadline : App.goalDeadline now lowered = None).
  { unfold App.goalDeadline.
    replace (Regex.group 1 (App.deadlineMatch lowered)) with (@None jsstring)
      by (vm_compute; reflexivity).
    reflexivity. }
  rewrite Hdeadline.
  replace (App.goalAmount lowered) with (Num (100 # 1)) by (vm_compute; reflexivity).
  replace (App.goalName lowered) with (Js.lit "new car") by (vm_compute; reflexivity).
  replace (Number.gtb (Num (100 # 1)) Number.zero
           && negb (Js.eqb (Js.lit "new car") (Js.lit "New Goal"))) with true
    by (vm_compute; reflexivity).
  cbn [App.handleAddGoal App.setGoals App.setChatHistory App.goals
       App.transactions App.predictedIncome App.selectedCurrency App.chatHistory
       NewGoal.name NewGoal.targetAmount NewGoal.deadline Goal.name
       Goal.targetAmount app].
  unfold response, App.setChatHistory, App.setGoals.
  cbn [App.transactions App.goals App.predictedIncome App.selectedCurrency
       App.chatHistory app].
  repeat (rewrite <- app_assoc || rewrite <- app_comm_cons); cbn [app].
  reflexivity.
Qed.

(** C5. "how much did I spend last month" on 2025-03-31: [setMonth] turns
    the 31st of February into the 3rd of March, so the month that is summed
    is March, the current month, and the expense of February is not
    counted. *)
Theorem last_month_on_the_31st (ms : Z) (uuid : jsstring)
    (goals : list Goal.t) (income : list PredictedIncome.t)
    (currency : jsstring) (chat : list ChatMessage) :
  let now := Date.make 2025 2 31 ms in
  let command := Js.lit "how much did I spend last month" in
  let lowered := Js.toLowerCase command in
  let february :=
    Transaction.make (Js.lit "t1") (Js.lit "2025-02-10") (Js.lit "fuel")
                     (Num (-100 # 1)) (Js.lit "Uncategorized") in
  let march :=
    Transaction.make (Js.lit "t2") (Js.lit "2025-03-05") (Js.lit "fuel")
                     (Num (-7 # 1)) (Js.lit "Uncategorized") in
  let st := App.makeState [february; march] goals income currency chat in
  App.targetDate now lowered = Date.make 2025 2 3 ms
  /\ fst (App.handleAiCommand now uuid command st)
     = Returned (Js.lit "You spent a total of "
                 ++ App.formatCurrency (Num (7 # 1)) currency
                 ++ Js.lit " last month.").
Proof.
  intros now command lowered february march st.
  assert (Htarget : App.targetDate now lowered = Date.make 2025 2 3 ms)
    by (vm_compute; reflexivity).
  split; [exact Htarget|].
  unfold App.handleAiCommand. fold lowered. unfold App.dispatch.
  replace (Js.includes lowered (Js.lit "create goal")) with false
    by (vm_compute; reflexivity).
  replace (Js.includes lowered (Js.lit "add goal")) with false
    by (vm_compute; reflexivity).
  replace (Js.includes lowered (Js.lit "how much")) with true
    by (vm_compute; reflexivity).
  replace (Js.includes lowered (Js.lit "spend")) with true
    by (vm_compute; reflexivity).
  cbn [orb andb]. unfold App.spendingAnalysis. rewrite Htarget.
  replace (App.keyword lowered) with (@None jsstring) by (vm_compute; reflexivity).
  replace (Js.includes lowered (Js.lit "last month")) with true
    by (vm_compute; reflexivity).
  cbn [App.setChatHistory App.transactions App.selectedCurrency].
  replace (fold_left _ [february; march] (Number.zero, O))
    with (Num (-7 # 1), 1%nat) by (vm_compute; reflexivity).
  replace (Number.abs (Num (-7 # 1))) with (Num (7 # 1)) by (vm_compute; reflexivity).
  cbn [App.hasKeyword fst]. rewrite <- ?app_assoc. reflexivity.
Qed.

End Scenarios.

(** *** Where the claims and the code part *)



(** C7, as stated, fails in its last part: a row in another currency is
    left out, but nothing counts it.  What the import hands over and what it
    tells the user are the same as without the row; the one number it
    reports is the count of imported rows. *)
Lemma import_skip_counterexample :
  let skipped := Sample.csvRow "11.01.2025" "coffee" "-45,00" "EUR" in
  let kept := Sample.csvRow "12.01.2025" "rent" "-9 000,00" "CZK" in
  let withRow := Settings.complete (Js.lit "CZK") [kept; skipped] in
  let without := Settings.complete (Js.lit "CZK") [kept] in
  Settings.imported withRow = Settings.imported without
  /\ Settings.alert withRow = Settings.alert without
  /\ Settings.alert withRow = Js.lit "Imported 1 transactions."
  /\ Settings.imported withRow
     = [NewTransaction.make (Js.lit "2025-01-12") (Js.lit "rent")
                            (Num (-9000 # 1)) (Js.lit "Uncategorized")].
Proof. vm_compute. repeat split; reflexivity. Qed.

(** *** The theorems at sample inputs *)




Lemma intent_first_match_wins_witness :
  let command := Js.lit "Hello there" in
  let result := @App.handleAiCommand Sample.plainHost Sample.midApril
                  (Js.lit "u1") command (Sample.state [] []) in
  ~ Spec.isCreateGoal (Js.toLowerCase command)
  /\ ~ Spec.isQuerySpending (Js.toLowerCase command)
  /\ ~ Spec.isAddTransaction (Js.toLowerCase command)
  /\ fst result = Returned App.capabilitySummary.
Proof.
  intros command result.
  assert (H1 : ~ Spec.isCreateGoal (Js.toLowerCase command)).
  { intros [E|E]; vm_compute in E; discriminate E. }
  assert (H2 : ~ Spec.isQuerySpending (Js.toLowerCase command)).
  { intros [E _]; vm_compute in E; discriminate E. }
  assert (H3 : ~ Spec.isAddTransaction (Js.toLowerCase command)).
  { intros [E|[E|[E|E]]]; vm_compute in E; discriminate E. }
  split; [exact H1|split; [exact H2|split; [exact H3|]]].
  exact (proj1 (proj2 (proj2 (proj2
    (@intent_first_match_wins Sample.plainHost Sample.midApril (Js.lit "u1")
       command (Sample.state [] [])))) H1 H2 H3)).
Defined.

Lemma import_accepts_exactly_witness :
  let kept := Sample.csvRow "12.01.2025" "rent" "-9 000,00" "CZK" in
  let skipped := Sample.csvRow "11.01.2025" "coffee" "-45,00" "EUR" in
  Spec.acceptable (Js.lit "CZK") kept
  /\ In (Spec.normalized kept)
        (Settings.imported (Settings.complete (Js.lit "CZK") [skipped; kept])).
Proof.
  intros kept skipped.
  assert (Hk : Spec.acceptable (Js.lit "CZK") kept).
  { split; [|split; [|split]].
    - exists (Js.lit "12.01.2025"). split; [vm_compute; reflexivity|discriminate].
    - exists (Js.lit "rent"). split; [vm_compute; reflexivity|discriminate].
    - exists (Js.lit "-9 000,00").
      split; [vm_compute; reflexivity|split; [discriminate|vm_compute; reflexivity]].
    - vm_compute; reflexivity. }
  split; [exact Hk|].
  apply (proj1 (proj2 (import_accepts_exactly (Js.lit "CZK") [skipped; kept]))).
  exists kept. split; [right; left; reflexivity|split; [exact Hk|reflexivity]].
Defined.

(** ** Further properties of the code *)

(** *** The ledger and goal handlers *)

Section Handlers.

Lemma map_replace_absent (txn : Transaction.t) (l : list Transaction.t) :
  ~ In (Transaction.id txn) (List.map Transaction.id l) ->
  List.map (fun t => if Js.eqb (Transaction.id t) (Transaction.id txn) then txn else t) l
  = l.
Proof.
  induction l as [|t l IH]; simpl; intros Hn; [reflexivity|].
  destruct (Js.eqb (Transaction.id t) (Transaction.id txn)) eqn:E.
  - apply eqb_eq in E. exfalso. apply Hn. now left.
  - rewrite IH; [reflexivity|]. intros Hin. apply Hn. now right.
Qed.

(** X1. Editing a transaction whose id no entry of the ledger has changes
    nothing at all: [handleEditTransaction] cannot add. *)
Theorem edit_unknown_id_changes_nothing (txn : Transaction.t) (st : App.AppState) :
  ~ In (Transaction.id txn) (List.map Transaction.id (App.transactions st)) ->
  App.handleEditTransaction txn st = st.
Proof.
  intros Hn. destruct st as [ledger goals income currency chat].
  unfold App.handleEditTransaction, App.setTransactions. simpl in *.
  now rewrite map_replace_absent.
Qed.

(** X2. After an edit every position of the ledger holds what it held
    before, except the positions whose entry has the edited id, which hold
    the new record; the ledger keeps its length, the rest of the state is
    untouched, and editing a second time changes nothing more. *)
Theorem edit_replaces_by_id (txn : Transaction.t) (st : App.AppState) :
  let st' := App.handleEditTransaction txn st in
  List.length (App.transactions st') = List.length (App.transactions st)
  /\ (forall i t, nth_error (App.transactions st) i = Some t ->
        nth_error (App.transactions st') i
        = Some (if Js.eqb (Transaction.id t) (Transaction.id txn) then txn else t))
  /\ App.goals st' = App.goals st
  /\ App.predictedIncome st' = App.predictedIncome st
  /\ App.selectedCurrency st' = App.selectedCurrency st
  /\ App.chatHistory st' = App.chatHistory st
  /\ App.handleEditTransaction txn st' = st'.
Proof.
  destruct st as [ledger goals income currency chat].
  unfold App.handleEditTransaction, App.setTransactions. simpl.
  repeat apply conj; try reflexivity.
  - apply List.length_map.
  - intros i t Hi. rewrite List.nth_error_map, Hi. reflexivity.
  - f_equal. rewrite List.map_map. apply List.map_ext. intros t.
    destruct (Js.eqb (Transaction.id t) (Transaction.id txn)) eqn:E;
      [now rewrite eqb_refl|now rewrite E].
Qed.

(** X3. After deleting an id no entry of the ledger has it, the entries with
    another id are all still there, in their order, and deleting it again
    changes nothing. *)
Theorem delete_removes_exactly_the_id (transactionId : jsstring) (st : App.AppState) :
  let st' := App.handleDeleteTransaction transactionId st in
  ~ In transactionId (List.map Transaction.id (App.transactions st'))
  /\ App.transactions st'
     = List.filter (fun t => negb (Js.eqb (Transaction.id t) transactionId))
                   (App.transactions st)
  /\ (forall t, In t (App.transactions st') <->
                In t (App.transactions st) /\ Transaction.id t <> transactionId)
  /\ App.handleDeleteTransaction transactionId st' = st'.
Proof.
  destruct st as [ledger goals income currency chat].
  unfold App.handleDeleteTransaction, App.setTransactions. simpl.
  assert (Hin : forall t,
    In t (List.filter (fun t => negb (Js.eqb (Transaction.id t) transactionId)) ledger)
    <-> In t ledger /\ Transaction.id t <> transactionId).
  { intros t. rewrite List.filter_In, negb_true_iff, eqb_neq. reflexivity. }
  repeat apply conj; try reflexivity.
  - intros Hi. apply List.in_map_iff in Hi as (t & Hid & Ht).
    apply Hin in Ht as [_ Hne]. contradiction.
  - exact Hin.
  - f_equal. induction ledger as [|t l IH]; simpl; [reflexivity|].
    destruct (Js.eqb (Transaction.id t) transactionId) eqn:E; simpl.
    + apply IH. intros t'. rewrite List.filter_In, negb_true_iff, eqb_neq. reflexivity.
    + rewrite E. simpl. f_equal. apply IH.
      intros t'. rewrite List.filter_In, negb_true_iff, eqb_neq. reflexivity.
Qed.

(** X4. A goal that was just added, under an id that no other goal has, is
    removed again by deleting that id, and the state is then what it was
    before the goal was added. *)
Theorem add_goal_then_delete (uuid : jsstring) (goal : NewGoal.t) (st : App.AppState) :
  ~ In uuid (List.map Goal.id (App.goals st)) ->
  App.handleDeleteGoal uuid (snd (App.handleAddGoal uuid goal st)) = st.
Proof.
  intros Hn. destruct st as [ledger goals income currency chat].
  unfold App.handleDeleteGoal, App.handleAddGoal, App.setGoals. simpl in *.
  f_equal. rewrite List.filter_app. simpl. rewrite eqb_refl. simpl.
  rewrite app_nil_r.
  induction goals as [|g l IH]; simpl; [reflexivity|].
  destruct (Js.eqb (Goal.id g) uuid) eqn:E.
  - apply eqb_eq in E. exfalso. apply Hn. simpl. now left.
  - simpl. f_equal. apply IH. intros Hin. apply Hn. simpl. now right.
Qed.

End Handlers.

(** *** What a chat command can and cannot change *)

Section Conversation.

Context `{Host}.

Variables (now : Date.t) (uuid : jsstring).

Lemma orElse_not_default (a : option jsstring) (b : jsstring) :
  Js.eqb (Js.orElse a b) b = false -> Js.orElse a b <> [].
Proof.
  unfold Js.orElse. destruct a as [s|]; [|now rewrite eqb_refl].
  destruct (Js.truthy s) eqn:E; [|now rewrite eqb_refl].
  intros _. now apply truthy_nonempty.
Qed.

(** The goal branch: nothing changes, or one goal is appended. *)
Lemma goalCreation_effect (lowered : jsstring) (st : App.AppState) :
  let st' := snd (App.goalCreation now uuid lowered st) in
  App.transactions st' = App.transactions st
  /\ App.predictedIncome st' = App.predictedIncome st
  /\ App.selectedCurrency st' = App.selectedCurrency st
  /\ App.chatHistory st' = App.chatHistory st
  /\ (App.goals st' = App.goals st
      \/ exists g, App.goals st' = App.goals st ++ [g]
           /\ Goal.id g = uuid /\ Goal.currentAmount g = Number.zero
           /\ Goal.estimatedCompletionDate g = None
           /\ Number.gtb (Goal.targetAmount g) Number.zero = true
           /\ Goal.name g <> [] /\ Goal.name g <> Js.lit "New Goal").
Proof.
  unfold App.goalCreation.
  destruct (Number.gtb (App.goalAmount lowered) Number.zero) eqn:Ea;
    [|cbn [andb snd]; repeat split; auto].
  destruct (Js.eqb (App.goalName lowered) (Js.lit "New Goal")) eqn:En;
    cbn [andb negb snd]; [repeat split; auto|].
  assert (Hgoal : forall dl,
    let st' := App.setGoals
                 (fun prev => prev ++ [Goal.make uuid (App.goalName lowered)
                                         (App.goalAmount lowered) Number.zero dl None])
                 st in
    App.transactions st' = App.transactions st
    /\ App.predictedIncome st' = App.predictedIncome st
    /\ App.selectedCurrency st' = App.selectedCurrency st
    /\ App.chatHistory st' = App.chatHistory st
    /\ (App.goals st' = App.goals st
        \/ exists g, App.goals st' = App.goals st ++ [g]
             /\ Goal.id g = uuid /\ Goal.currentAmount g = Number.zero
             /\ Goal.estimatedCompletionDate g = None
             /\ Number.gtb (Goal.targetAmount g) Number.zero = true
             /\ Goal.name g <> [] /\ Goal.name g <> Js.lit "New Goal")).
  { intros dl. cbn. repeat split; auto. right. eexists. split; [reflexivity|].
    cbn. repeat split; auto.
    - apply orElse_not_default. exact En.
    - now apply eqb_neq. }
  unfold App.handleAddGoal.
  cbn [NewGoal.name NewGoal.targetAmount NewGoal.deadline].
  destruct (App.goalDeadline now lowered) as [d|]; [|apply Hgoal].
  destruct (Js.truthy d); [|apply Hgoal].
  destruct (Date.parseISO d); apply Hgoal.
Qed.

Lemma spendingAnalysis_reads (lowered : jsstring) (st : App.AppState) :
  snd (App.spendingAnalysis now lowered st) = st.
Proof.
  unfold App.spendingAnalysis.
  destruct (fold_left _ _ _) as [totalSpent matching].
  destruct (App.hasKeyword _); [destruct (0 <? matching)%nat|]; reflexivity.
Qed.

Lemma addTransaction_effect (lowered : jsstring) (st : App.AppState) :
  snd (App.addTransaction now uuid lowered st) = st
  \/ snd (App.addTransaction now uuid lowered st)
     = App.handleEditTransaction (App.newTransaction now uuid lowered) st.
Proof.
  unfold App.addTransaction.
  destruct (Number.gtb _ _); [right|left]; reflexivity.
Qed.

(** The branches leave these parts of the state alone. *)
Lemma dispatch_frame (lowered : jsstring) (st : App.AppState) :
  let st' := snd (App.dispatch now uuid lowered st) in
  List.length (App.transactions st') = List.length (App.transactions st)
  /\ App.predictedIncome st' = App.predictedIncome st
  /\ App.selectedCurrency st' = App.selectedCurrency st
  /\ App.chatHistory st' = App.chatHistory st.
Proof.
  unfold App.dispatch.
  destruct (_ || _).
  { destruct (goalCreation_effect lowered st) as (Ht & Hp & Hc & Hh & _).
    cbn zeta in *. rewrite Ht. auto. }
  destruct (_ && _).
  { rewrite spendingAnalysis_reads. auto. }
  destruct (_ || _); [|cbn; auto].
  destruct (addTransaction_effect lowered st) as [-> | ->]; [auto|].
  split; [apply handleEditTransaction_length|now destruct st].
Qed.

(** X5. Every call of [handleAiCommand] logs the command as a user turn and,
    when it returns, the returned text as one assistant turn right after
    it; when it throws, only the user turn is logged. *)
Theorem interpreter_conversation_log (command : jsstring) (st : App.AppState) :
  match App.handleAiCommand now uuid command st with
  | (Returned responseText, st') =>
      App.chatHistory st'
      = App.chatHistory st ++ [Build_ChatMessage user command;
                               Build_ChatMessage ai responseText]
  | (Threw _, st') =>
      App.chatHistory st' = App.chatHistory st ++ [Build_ChatMessage user command]
  end.
Proof.
  unfold App.handleAiCommand.
  pose proof (dispatch_frame (Js.toLowerCase command)
    (App.setChatHistory (fun prev => prev ++ [Build_ChatMessage user command]) st))
    as (_ & _ & _ & Hh).
  cbn zeta in Hh.
  destruct (App.dispatch _ _ _ _) as [[r|e] st2]; cbn [snd] in Hh; cbn.
  - rewrite Hh. cbn. now rewrite <- app_assoc.
  - rewrite Hh. reflexivity.
Qed.

(** X6. No chat command adds or removes a transaction, whatever it says:
    the ledger keeps its length, and the predicted income and the currency
    are untouched.  The goal list is left as it was or gets one new goal at
    its end, which has the drawn id, nothing saved yet, no estimate, a
    positive target and a name that is neither empty nor the placeholder. *)
Theorem interpreter_frame (command : jsstring) (st : App.AppState) :
  let st' := snd (App.handleAiCommand now uuid command st) in
  List.length (App.transactions st') = List.length (App.transactions st)
  /\ App.predictedIncome st' = App.predictedIncome st
  /\ App.selectedCurrency st' = App.selectedCurrency st
  /\ (App.goals st' = App.goals st
      \/ Spec.isCreateGoal (Js.toLowerCase command)
         /\ exists g, App.goals st' = App.goals st ++ [g]
              /\ Goal.id g = uuid /\ Goal.currentAmount g = Number.zero
              /\ Goal.estimatedCompletionDate g = None
              /\ Number.gtb (Goal.targetAmount g) Number.zero = true
              /\ Goal.name g <> [] /\ Goal.name g <> Js.lit "New Goal").
Proof.
  unfold App.handleAiCommand.
  set (st1 := App.setChatHistory _ st).
  set (lowered := Js.toLowerCase command).
  assert (Hst1 : App.transactions st1 = App.transactions st
                 /\ App.predictedIncome st1 = App.predictedIncome st
                 /\ App.selectedCurrency st1 = App.selectedCurrency st
                 /\ App.goals st1 = App.goals st) by (repeat split).
  destruct Hst1 as (Ht1 & Hp1 & Hc1 & Hg1).
  pose proof (dispatch_frame lowered st1) as (Hl & Hp & Hc & _).
  assert (Hgoals : App.goals (snd (App.dispatch now uuid lowered st1)) = App.goals st
      \/ Spec.isCreateGoal lowered
         /\ exists g, App.goals (snd (App.dispatch now uuid lowered st1))
                      = App.goals st ++ [g]
              /\ Goal.id g = uuid /\ Goal.currentAmount g = Number.zero
              /\ Goal.estimatedCompletionDate g = None
              /\ Number.gtb (Goal.targetAmount g) Number.zero = true
              /\ Goal.name g <> [] /\ Goal.name g <> Js.lit "New Goal").
  { pose proof (goalCreation_effect lowered st1) as (_ & _ & _ & _ & Hbranch).
    cbn zeta in Hbranch. rewrite Hg1 in Hbranch.
    unfold App.dispatch, Spec.isCreateGoal.
    destruct (Js.includes lowered (Js.lit "create goal")) eqn:E1; cbn [orb].
    { destruct Hbranch as [Hg|Hg]; [now left|right; auto]. }
    destruct (Js.includes lowered (Js.lit "add goal")) eqn:E2.
    { destruct Hbranch as [Hg|Hg]; [now left|right; auto]. }
    left. destruct (_ && _); [now rewrite spendingAnalysis_reads|].
    destruct (_ || _); [|exact Hg1].
    destruct (addTransaction_effect lowered st1) as [-> | ->]; exact Hg1. }
  cbn zeta in *.
  destruct (App.dispatch now uuid lowered st1) as [[r|e] st2]; cbn [snd] in *;
    cbn [App.setChatHistory App.transactions App.predictedIncome
         App.selectedCurrency App.goals];
    rewrite <- Ht1, <- Hp1, <- Hc1; auto.
Qed.

End Conversation.

(** *** Commands without an amount *)

Section NoAmount.

Context `{Host}.

Lemma toLowerCase_digitless (s : jsstring) :
  Extra.digitless s -> Extra.digitless (Js.toLowerCase s).
Proof.
  unfold Extra.digitless, Js.toLowerCase.
  induction 1 as [|c s Hc _ IH]; simpl; constructor; [|exact IH].
  unfold Js.isDigit, Js.toLowerUnit in *.
  repeat match goal with
         | |- context [if ?b then _ else _] => destruct b eqn:?
         end;
    rewrite ?andb_true_iff, ?andb_false_iff, ?negb_true_iff, ?N.leb_le,
            ?N.leb_gt, ?N.eqb_neq in *; lia.
Qed.

Lemma amountMatch_digitless (s : jsstring) :
  Extra.digitless s -> App.amountMatch s = None.
Proof.
  unfold App.amountMatch. induction 1 as [|c s Hc _ IH].
  - reflexivity.
  - cbn [Regex.exec]. rewrite IH.
    cbn. rewrite Hc. reflexivity.
Qed.

Lemma goalAmountMatch_digitless (s : jsstring) :
  Extra.digitless s -> App.goalAmountMatch s = None.
Proof.
  unfold App.goalAmountMatch. induction 1 as [|c s Hc _ IH].
  - reflexivity.
  - cbn [Regex.exec]. rewrite IH.
    cbn. rewrite Hc. reflexivity.
Qed.

(** X7. A command without any digit has no amount: the goal branch and the
    transaction branch answer it with their guidance text and change
    nothing, so whatever the command says, the ledger and the goals are
    afterwards what they were. *)
Theorem digitless_command_changes_nothing (now : Date.t) (uuid command : jsstring)
    (st : App.AppState) :
  Extra.digitless command ->
  let lowered := Js.toLowerCase command in
  let st' := snd (App.handleAiCommand now uuid command st) in
  (forall st0, App.goalCreation now uuid lowered st0 = (Returned App.goalGuidance, st0))
  /\ (forall st0, App.addTransaction now uuid lowered st0
                  = (Returned App.transactionGuidance, st0))
  /\ App.transactions st' = App.transactions st
  /\ App.goals st' = App.goals st.
Proof.
  intros Hc lowered st'.
  pose proof (toLowerCase_digitless _ Hc) as Hd. fold lowered in Hd.
  assert (Hgoal : forall st0,
    App.goalCreation now uuid lowered st0 = (Returned App.goalGuidance, st0)).
  { intros st0. unfold App.goalCreation, App.goalAmount, App.goalAmountStr.
    rewrite (goalAmountMatch_digitless _ Hd). reflexivity. }
  assert (Hadd : forall st0,
    App.addTransaction now uuid lowered st0 = (Returned App.transactionGuidance, st0)).
  { intros st0. unfold App.addTransaction, App.amountVal, App.amountStr.
    rewrite (amountMatch_digitless _ Hd). reflexivity. }
  split; [exact Hgoal|split; [exact Hadd|]].
  unfold st', App.handleAiCommand. fold lowered.
  set (st1 := App.setChatHistory _ st).
  assert (Hdispatch : exists r, App.dispatch now uuid lowered st1 = (Returned r, st1)).
  { unfold App.dispatch. rewrite Hgoal, Hadd.
    destruct (_ || _); [eauto|]. destruct (_ && _); [|destruct (_ || _); eauto].
    pose proof (spendingAnalysis_reads now lowered st1) as Hs.
    unfold App.spendingAnalysis in *.
    destruct (fold_left _ _ _) as [totalSpent matching].
    destruct (App.hasKeyword _); [destruct (0 <? matching)%nat|]; eauto. }
  destruct Hdispatch as [r ->]. split; reflexivity.
Qed.

End NoAmount.

(** *** More on the goal projection *)

Section ProjectionCases.

Variables (now : Date.t) (T : list Transaction.t).

Lemma remaining_of_reached (t c : Q) :
  (t <= c)%Q ->
  Number.eqb (Number.max Number.zero (Number.sub (Num t) (Num c))) Number.zero = true.
Proof.
  intros Hle. unfold Number.sub, Number.neg, Number.add, Number.max, Number.ltb,
    Number.zero, Number.ofZ, Number.Qltb.
  assert (Hneg : (Qred (t + Qred (- c)) <= inject_Z 0)%Q).
  { rewrite !Qred_correct. change (inject_Z 0) with 0%Q.
    apply Qle_minus_iff in Hle. apply Qle_minus_iff.
    assert (Heq : (0 + - (t + - c) == c + - t)%Q) by ring.
    rewrite Heq. exact Hle. }
  apply Qle_bool_iff in Hneg. rewrite Hneg. reflexivity.
Qed.

(** X8. A goal whose saved amount has reached its target (both finite) is
    given the current instant as its estimate, whatever the ledger holds. *)
Theorem reached_goal_is_dated_now (g : Goal.t) (t c : Q) :
  Goal.targetAmount g = Num t -> Goal.currentAmount g = Num c -> (t <= c)%Q ->
  App.projectGoal now T g
  = Returned (Goal.withEta g (Some (Date.toISOString now))).
Proof.
  intros Ht Hc Hle. unfold App.projectGoal, App.remainingAmount.
  rewrite Ht, Hc, (remaining_of_reached _ _ Hle). reflexivity.
Qed.



End ProjectionCases.

Section Reactor.

Lemma jsonNumberEqb_refl (x : number) : App.jsonNumberEqb x x = true.
Proof. destruct x; try reflexivity. simpl. apply Qeq_bool_iff. reflexivity. Qed.

Lemma jsonOptionEqb_refl (a : option jsstring) : App.jsonOptionEqb a a = true.
Proof. destruct a; [apply eqb_refl|reflexivity]. Qed.

Lemma jsonGoalsEqb_refl (G : list Goal.t) : App.jsonGoalsEqb G G = true.
Proof.
  induction G as [|g G IH]; simpl; [reflexivity|].
  unfold App.jsonGoalEqb.
  now rewrite !eqb_refl, !jsonNumberEqb_refl, !jsonOptionEqb_refl, IH.
Qed.

(** X10. Once the goal reactor has run, running it again with the same
    clock changes nothing and does not throw if the first run did not: the
    effect settles after one pass. *)
Theorem goalReactor_settles (now : Date.t) (st : App.AppState) :
  let first := App.goalReactor now st in
  App.goalReactor now (snd first) = (fst first, snd first).
Proof.
  unfold App.goalReactor.
  destruct (App.projectGoals (App.goals st) (App.transactions st) now)
    as [G'|e] eqn:HG; cbn [fst snd]; [|now rewrite HG].
  destruct (App.jsonGoalsEqb G' (App.goals st)) eqn:E; cbn [negb fst snd].
  - rewrite HG, E. reflexivity.
  - cbn [App.setGoals App.goals App.transactions].
    rewrite (projectGoals_stable _ _ _ _ HG), jsonGoalsEqb_refl. reflexivity.
Qed.

End Reactor.

Section Estimate.

Variables (now : Date.t) (T : list Transaction.t).

Lemma Qle_bool_false (x y : Q) : Qle_bool x y = false -> (y < x)%Q.
Proof.
  intros Hf. apply Qnot_le_lt. intros Hle. apply Qle_bool_iff in Hle. congruence.
Qed.




End Estimate.

(** *** Calendar months in the spending analysis and in the overview *)

Section Months.






Lemma iter_succDay (y m t : Z) (k : nat) :
  1 + Z.of_nat k <= Date.getDaysInMonth y m ->
  Nat.iter k Date.succDay (Date.make y m 1 t) = Date.make y m (1 + Z.of_nat k) t.
Proof.
  induction k as [|k IH]; intros Hk; [reflexivity|].
  rewrite Nat.iter_succ, IH by lia. unfold Date.succDay.
  cbn [Date.year Date.month Date.day Date.time].
  replace (1 + Z.of_nat k <? Date.getDaysInMonth y m) with true
    by (symmetry; apply Z.ltb_lt; lia).
  f_equal. lia.
Qed.

Lemma daysInMonth_at_least (y m : Z) : 28 <= Date.getDaysInMonth y m.
Proof.
  unfold Date.getDaysInMonth.
  destruct (m =? 1); [destruct (Date.isLeapYear y); lia|].
  destruct (_ || _); lia.
Qed.

(** X13. Up to the 28th of a month, "last month" is the previous calendar
    month: the target date keeps the day and the time of day of [now] and
    lies one month earlier. *)
Theorem last_month_is_previous_month (now : Date.t) (lowered : jsstring) :
  Date.valid now -> Date.day now <= 28 ->
  Js.includes lowered (Js.lit "last month") = true ->
  let target := App.targetDate now lowered in
  Spec.monthIndex target = Spec.monthIndex now - 1
  /\ 0 <= Date.month target < 12
  /\ Date.day target = Date.day now /\ Date.time target = Date.time now.
Proof.
  intros (Hm & Hd & Ht) H28 Hlast. unfold App.targetDate. rewrite Hlast.
  unfold Date.setMonth, Date.addDays.
  replace (0 <=? Date.day now - 1) with true by (symmetry; apply Z.leb_le; lia).
  pose proof (daysInMonth_at_least (Date.year now + (Date.month now - 1) / 12)
                ((Date.month now - 1) mod 12)) as Hdim.
  rewrite iter_succDay by lia.
  rewrite Z2Nat.id by lia.
  unfold Spec.monthIndex. cbn [Date.year Date.month Date.day Date.time].
  pose proof (Z.div_mod (Date.month now - 1) 12 ltac:(lia)) as Hdm.
  pose proof (Z.mod_pos_bound (Date.month now - 1) 12 ltac:(lia)) as Hmod.
  repeat split; lia.
Qed.

End Months.

Section Overview.

Variable now : Date.t.



End Overview.

(** *** Rows of a statement *)

Section Rows.

Lemma splitAux_dotless (a cur rest : jsstring) :
  Extra.dotless a ->
  Js.splitAux 46 cur (a ++ rest) = Js.splitAux 46 (rev a ++ cur) rest.
Proof.
  intros Ha. revert cur. induction Ha as [|c a Hc _ IH]; intros cur; [reflexivity|].
  simpl. destruct (N.eqb_spec c 46) as [->|_]; [contradiction|].
  rewrite IH, <- app_assoc. reflexivity.
Qed.

Lemma split_one (a : jsstring) : Extra.dotless a -> Js.split 46 a = [a].
Proof.
  intros Ha. unfold Js.split. rewrite <- (app_nil_r a) at 1.
  rewrite (splitAux_dotless a [] [] Ha). cbn [Js.splitAux].
  now rewrite app_nil_r, rev_involutive.
Qed.

Lemma split_three (a b c : jsstring) :
  Extra.dotless a -> Extra.dotless b -> Extra.dotless c ->
  Js.split 46 (a ++ 46%N :: b ++ 46%N :: c) = [a; b; c].
Proof.
  intros Ha Hb Hc. unfold Js.split.
  rewrite (splitAux_dotless a [] _ Ha). cbn [Js.splitAux]. rewrite N.eqb_refl.
  rewrite (splitAux_dotless b [] _ Hb). cbn [Js.splitAux]. rewrite N.eqb_refl.
  fold (Js.split 46 c). rewrite (split_one c Hc).
  now rewrite !app_nil_r, !rev_involutive.
Qed.

Lemma dash_literal : Js.lit "-" = [45%N].
Proof. vm_compute. reflexivity. Qed.

(** X15. A booking date of the form day.month.year (three parts without a
    dot inside) is rewritten to year-month-day. *)
Theorem isoDate_reorders (day month year : jsstring) :
  Extra.dotless day -> Extra.dotless month -> Extra.dotless year ->
  Settings.isoDate (day ++ 46%N :: month ++ 46%N :: year)
  = year ++ 45%N :: month ++ 45%N :: day.
Proof.
  intros Hd Hm Hy. unfold Settings.isoDate.
  rewrite (split_three day month year Hd Hm Hy), dash_literal.
  cbn [nth_error Js.show]. reflexivity.
Qed.

(** X16. A booking date without any dot is not rejected: it is stored as
    "undefined-undefined-" followed by the text, which [parseISO] does not
    accept, so the entry is in the balance but in no month and in no
    projection window. *)
Theorem isoDate_without_dots (date : jsstring) (now : Date.t) (t : Transaction.t) :
  Extra.dotless date ->
  Transaction.date t = Settings.isoDate date ->
  Settings.isoDate date = Js.lit "undefined-undefined-" ++ date
  /\ Date.parseISO (Settings.isoDate date) = None
  /\ App.isRecent now t = false
  /\ Extra.inMonthOf now t = false.
Proof.
  intros Hd Ht.
  assert (Hiso : Settings.isoDate date = Js.lit "undefined-undefined-" ++ date).
  { unfold Settings.isoDate. rewrite (split_one date Hd).
    cbn [nth_error Js.show].
    replace (Js.lit "undefined-undefined-")
      with (Js.lit "undefined" ++ Js.lit "-" ++ Js.lit "undefined" ++ Js.lit "-")
      by (vm_compute; reflexivity).
    now rewrite <- !app_assoc. }
  assert (Hparse : Date.parseISO (Settings.isoDate date) = None).
  { rewrite Hiso.
    replace (Js.lit "undefined-undefined-")
      with [117; 110; 100; 101; 102; 105; 110; 101; 100; 45;
            117; 110; 100; 101; 102; 105; 110; 101; 100; 45]%N
      by (vm_compute; reflexivity).
    reflexivity. }
  unfold App.isRecent, Extra.inMonthOf. rewrite Ht, Hparse. auto.
Qed.

Lemma rowStep_appends (selectedCurrency : jsstring)
    (acc : list NewTransaction.t * list Settings.warning) (r : Settings.row) :
  Settings.rowStep selectedCurrency acc r
  = (fst acc ++ fst (Settings.rowStep selectedCurrency ([], []) r),
     snd acc ++ snd (Settings.rowStep selectedCurrency ([], []) r)).
Proof.
  unfold Settings.rowStep.
  destruct (r !! Js.lit "Datum zaúčtování"); [|simpl; now rewrite app_nil_r].
  destruct (r !! Js.lit "Popis operace"); [|simpl; now rewrite app_nil_r].
  destruct (r !! Js.lit "Částka"); [|simpl; now rewrite app_nil_r].
  destruct (_ && _ && _ && _); [|simpl; now rewrite app_nil_r].
  destruct (negb _); simpl; now rewrite app_nil_r.
Qed.

Lemma fold_rowStep_appends (selectedCurrency : jsstring) (data : list Settings.row)
    (acc : list NewTransaction.t * list Settings.warning) :
  fold_left (Settings.rowStep selectedCurrency) data acc
  = (fst acc ++ fst (fold_left (Settings.rowStep selectedCurrency) data ([], [])),
     snd acc ++ snd (fold_left (Settings.rowStep selectedCurrency) data ([], []))).
Proof.
  revert acc; induction data as [|r data IH]; intros acc.
  - simpl. rewrite !app_nil_r. now destruct acc.
  - cbn [fold_left]. rewrite IH, (IH (Settings.rowStep selectedCurrency ([], []) r)).
    rewrite (rowStep_appends selectedCurrency acc r). cbn [fst snd].
    now rewrite !app_assoc.
Qed.

(** X17. The import works row by row: what it accepts from two lists of
    rows one after the other is what it accepts from the first followed by
    what it accepts from the second, and so for the warnings. *)
Theorem import_of_concatenation (selectedCurrency : jsstring)
    (data1 data2 : list Settings.row) :
  Settings.imported (Settings.complete selectedCurrency (data1 ++ data2))
  = Settings.imported (Settings.complete selectedCurrency data1)
    ++ Settings.imported (Settings.complete selectedCurrency data2)
  /\ Settings.warnings (Settings.complete selectedCurrency (data1 ++ data2))
     = Settings.warnings (Settings.complete selectedCurrency data1)
       ++ Settings.warnings (Settings.complete selectedCurrency data2).
Proof.
  unfold Settings.complete. rewrite fold_left_app.
  rewrite (fold_rowStep_appends selectedCurrency data2
             (fold_left (Settings.rowStep selectedCurrency) data1 ([], []))).
  destruct (fold_left (Settings.rowStep selectedCurrency) data1 ([], [])) as [a1 w1].
  destruct (fold_left (Settings.rowStep selectedCurrency) data2 ([], [])) as [a2 w2].
  split; reflexivity.
Qed.

End Rows.

(** *** The forms *)

Section Forms.

(** X18. Saving the goal form touches nothing but the goals, and whatever it
    stores has the name of the form, which is not empty, and a positive
    target: a new goal goes to the end of the list with nothing saved and no
    estimate; an edited goal replaces the entries with its id and keeps that
    id and its estimate, with a saved amount that is a number. *)
Theorem goal_form_stores_valid_goals (uuid : jsstring) (f : GoalsView.Form)
    (st : App.AppState) :
  let st' := snd (GoalsView.handleSave uuid f st) in
  let stored (new : Goal.t) :=
    Goal.name new = GoalsView.goalName f /\ Goal.name new <> []
    /\ Number.gtb (Goal.targetAmount new) Number.zero = true in
  App.transactions st' = App.transactions st
  /\ App.predictedIncome st' = App.predictedIncome st
  /\ App.selectedCurrency st' = App.selectedCurrency st
  /\ App.chatHistory st' = App.chatHistory st
  /\ (App.goals st' = App.goals st
      \/ (exists new, App.goals st' = App.goals st ++ [new] /\ stored new
            /\ Goal.id new = uuid /\ Goal.currentAmount new = Number.zero
            /\ Goal.estimatedCompletionDate new = None)
      \/ (exists g new, GoalsView.currentGoal f = Some g /\ stored new
            /\ App.goals st'
               = List.map (fun x => if Js.eqb (Goal.id x) (Goal.id g) then new else x)
                          (App.goals st)
            /\ Goal.id new = Goal.id g
            /\ Goal.estimatedCompletionDate new = Goal.estimatedCompletionDate g
            /\ Number.isNaN (Goal.currentAmount new) = false)).
Proof.
  intros st' stored. unfold st', GoalsView.handleSave.
  destruct (GoalsView.canSave f) eqn:Hsave; [|cbn; repeat split; auto].
  unfold GoalsView.canSave in Hsave.
  apply andb_prop in Hsave as [Hsave Hcur]. apply andb_prop in Hsave as [Hsave Hpos].
  apply andb_prop in Hsave as [Hname _]. apply truthy_nonempty in Hname.
  destruct (GoalsView.modalMode f) eqn:Hmode.
  - cbn. repeat split; auto. right. left. eexists. split; [reflexivity|].
    unfold stored. cbn. repeat split; auto.
  - destruct (GoalsView.currentGoal f) as [g|] eqn:Hg; [|cbn; repeat split; auto].
    cbn. repeat split; auto. right. right. eexists g, _.
    split; [reflexivity|]. unfold stored. cbn. repeat split; auto.
    cbn in Hcur. now apply negb_true_iff in Hcur.
Qed.

Lemma positive_amount (x : number) :
  Number.isNaN x || Number.leb x Number.zero = false ->
  Number.gtb x Number.zero = true /\ Number.ltb (Number.neg x) Number.zero = true.
Proof.
  destruct x as [| | |a]; cbn; try discriminate; [auto|].
  unfold Number.Qltb. intros Hle. apply Qle_bool_false in Hle.
  split; apply negb_true_iff.
  - destruct (Qle_bool a (inject_Z 0)) eqn:E; [|reflexivity].
    apply Qle_bool_iff in E. exfalso. eapply Qlt_irrefl, Qlt_le_trans; eauto.
  - destruct (Qle_bool (inject_Z 0) (Qred (- a))) eqn:E; [|reflexivity].
    apply Qle_bool_iff in E. rewrite Qred_correct in E. exfalso.
    change (inject_Z 0) with 0%Q in *.
    assert (Ha : (a <= 0)%Q).
    { apply Qle_minus_iff. assert (Heq : (0 + - a == - a)%Q) by ring.
      now rewrite Heq. }
    eapply Qlt_irrefl, Qlt_le_trans; eauto.
Qed.

(** X19. In add mode the calendar form never changes the ledger when the
    drawn id is new to it, because it stores through
    [handleEditTransaction]: an expense with a description and a positive
    amount is accepted without any alert, the dialog closes, and the entry
    is not there. *)
Theorem calendar_add_is_lost (now : Date.t) (uuid : jsstring)
    (f : BudgetCalendarView.Form) (st : App.AppState) (date : Date.t) :
  BudgetCalendarView.modalMode f = modeAdd ->
  ~ In uuid (List.map Transaction.id (App.transactions st)) ->
  let saved := BudgetCalendarView.handleSave now uuid f st in
  App.transactions (BudgetCalendarView.state saved) = App.transactions st
  /\ App.goals (BudgetCalendarView.state saved) = App.goals st
  /\ (BudgetCalendarView.selectedDate f = Some date ->
      BudgetCalendarView.entryType f = BudgetCalendarView.expense ->
      BudgetCalendarView.description f <> [] ->
      Number.gtb (Number.parseFloat (BudgetCalendarView.amount f)) Number.zero = true ->
      BudgetCalendarView.alerted saved = None
      /\ BudgetCalendarView.isModalOpen (BudgetCalendarView.form saved) = false
      /\ BudgetCalendarView.state saved = st).
Proof.
  intros Hmode Hfresh saved.
  assert (Hedit : forall d desc amt cat,
            App.handleEditTransaction (Transaction.make uuid d desc amt cat) st = st).
  { intros. destruct st as [ledger goals income currency chat].
    unfold App.handleEditTransaction, App.setTransactions.
    cbn [App.transactions App.goals App.predictedIncome App.selectedCurrency
         App.chatHistory] in *.
    now rewrite (map_replace_absent (Transaction.make uuid d desc amt cat) ledger). }
  unfold saved, BudgetCalendarView.handleSave. rewrite Hmode.
  repeat apply conj.
  - destruct (BudgetCalendarView.selectedDate f); [|reflexivity].
    destruct (_ || _); [reflexivity|].
    destruct (_ && _); [destruct (negb _); reflexivity|].
    destruct (negb _); [reflexivity|].
    cbn [BudgetCalendarView.state]. now rewrite Hedit.
  - destruct (BudgetCalendarView.selectedDate f); [|reflexivity].
    destruct (_ || _); [reflexivity|].
    destruct (_ && _); [destruct (negb _); reflexivity|].
    destruct (negb _); [reflexivity|].
    cbn [BudgetCalendarView.state]. now rewrite Hedit.
  - intros -> -> Hdesc Hpos.
    assert (Hvalid : Number.isNaN (Number.parseFloat (BudgetCalendarView.amount f))
                     || Number.leb (Number.parseFloat (BudgetCalendarView.amount f))
                                   Number.zero = false).
    { destruct (Number.parseFloat _) as [| | |a]; try discriminate; [reflexivity|].
      cbn in *. unfold Number.Qltb in Hpos. apply negb_true_iff in Hpos. exact Hpos. }
    rewrite Hvalid. cbn [andb].
    apply truthy_nonempty in Hdesc. rewrite Hdesc. cbn [negb].
    cbn [BudgetCalendarView.alerted BudgetCalendarView.form BudgetCalendarView.state
         BudgetCalendarView.close BudgetCalendarView.isModalOpen].
    rewrite Hedit. auto.
Qed.

(** X20. An edit of a ledger entry through the calendar form that raises no
    alert replaces the entries with the id of the event by a record with
    that id, the chosen day as its date and the description and category of
    the form; its amount is negative for an expense and positive for an
    income. *)
Theorem calendar_edit_keeps_id_and_sign (now : Date.t) (uuid : jsstring)
    (f : BudgetCalendarView.Form) (st : App.AppState)
    (date : Date.t) (resource : Transaction.t) :
  BudgetCalendarView.modalMode f = modeEdit ->
  BudgetCalendarView.selectedDate f = Some date ->
  BudgetCalendarView.selectedEvent f
  = Some (BudgetCalendarView.TransactionEvent resource) ->
  BudgetCalendarView.alerted (BudgetCalendarView.handleSave now uuid f st) = None ->
  exists new,
    BudgetCalendarView.state (BudgetCalendarView.handleSave now uuid f st)
    = App.handleEditTransaction new st
    /\ Transaction.id new = Transaction.id resource
    /\ Transaction.date new = Date.formatIsoDate date
    /\ Transaction.description new = BudgetCalendarView.description f
    /\ Transaction.category new = BudgetCalendarView.category f
    /\ match BudgetCalendarView.entryType f with
       | BudgetCalendarView.expense =>
           Number.ltb (Transaction.amount new) Number.zero = true
       | BudgetCalendarView.income =>
           Number.gtb (Transaction.amount new) Number.zero = true
       end.
Proof.
  intros Hmode Hdate Hevent. unfold BudgetCalendarView.handleSave.
  rewrite Hmode, Hdate, Hevent.
  destruct (_ || _) eqn:Hvalid; [discriminate|].
  destruct (negb _); [discriminate|]. intros _.
  eexists. split; [reflexivity|]. cbn. repeat split.
  destruct (positive_amount _ Hvalid) as [Hpos Hneg].
  destruct (BudgetCalendarView.entryType f); assumption.
Qed.

End Forms.

(** *** Dates written and read back *)

Section DateRoundTrip.

Lemma below_in_range (n : N) (k : nat) :
  (n < N.of_nat k)%N -> In n (List.map N.of_nat (seq 0 k)).
Proof.
  intros Hn. apply List.in_map_iff. exists (N.to_nat n).
  split; [apply N2Nat.id|]. apply List.in_seq. lia.
Qed.

Lemma reads2_all (n : N) : (n < 100)%N -> Extra.reads2 n = true.
Proof.
  intros Hn.
  assert (Hall : forallb Extra.reads2 (List.map N.of_nat (seq 0 100)) = true)
    by (vm_compute; reflexivity).
  rewrite List.forallb_forall in Hall. apply Hall.
  apply (below_in_range n 100). exact Hn.
Qed.

Lemma reads4_all (n : N) : (n < 10000)%N -> Extra.reads4 n = true.
Proof.
  intros Hn.
  set (range := List.map N.of_nat (seq 0 100)).
  assert (Hall : forallb (fun h => forallb (fun l => Extra.reads4 (100 * h + l)%N) range)
                         range = true)
    by (vm_compute; reflexivity).
  rewrite List.forallb_forall in Hall.
  assert (Hh : In (n / 100)%N range).
  { apply (below_in_range _ 100). apply N.Div0.div_lt_upper_bound. lia. }
  assert (Hl : In (n mod 100)%N range).
  { apply (below_in_range _ 100). apply N.mod_lt. lia. }
  specialize (Hall _ Hh). rewrite List.forallb_forall in Hall.
  specialize (Hall _ Hl). cbn beta in Hall.
  now rewrite <- N.div_mod in Hall by lia.
Qed.

Lemma parseISO_formatIsoDate (d : Date.t) :
  Date.valid d -> 1 <= Date.year d <= 9999 ->
  Date.parseISO (Date.formatIsoDate d)
  = Some (Date.make (Date.year d) (Date.month d) (Date.day d) 0).
Proof.
  intros (Hm & Hd & Ht) Hy.
  assert (Hdim : Date.getDaysInMonth (Date.year d) (Date.month d) <= 31).
  { unfold Date.getDaysInMonth. destruct (_ =? 1); [destruct (Date.isLeapYear _); lia|].
    destruct (_ || _); lia. }
  unfold Date.formatIsoDate.
  replace (0 <? Date.year d) with true by (symmetry; apply Z.ltb_lt; lia).
  rewrite dash_literal.
  pose proof (reads4_all (Z.to_N (Date.year d)) ltac:(lia)) as H4.
  pose proof (reads2_all (Z.to_N (Date.month d + 1)) ltac:(lia)) as H2m.
  pose proof (reads2_all (Z.to_N (Date.day d)) ltac:(lia)) as H2d.
  unfold Extra.reads4 in H4. unfold Extra.reads2 in H2m, H2d.
  destruct (Js.padZeros 4 _) as [|y1 [|y2 [|y3 [|y4 [|? ?]]]]]; try discriminate.
  destruct (Js.padZeros 2 (Z.to_N (Date.month d + 1))) as [|m1 [|m2 [|? ?]]];
    try discriminate.
  destruct (Js.padZeros 2 (Z.to_N (Date.day d))) as [|a1 [|a2 [|? ?]]];
    try discriminate.
  cbn [app Date.parseISO].
  destruct (Date.number2 y1 y2) as [yh|]; [|discriminate].
  destruct (Date.number2 y3 y4) as [yl|]; [|discriminate].
  destruct (Date.number2 m1 m2) as [m|]; [|discriminate].
  destruct (Date.number2 a1 a2) as [a|]; [|discriminate].
  apply Z.eqb_eq in H4, H2m, H2d. rewrite Z2N.id in H4, H2m, H2d by lia.
  rewrite N.eqb_refl. cbn [andb]. rewrite H4, H2m, H2d.
  replace (Date.month d + 1 - 1) with (Date.month d) by lia.
  replace ((1 <=? Date.month d + 1) && (Date.month d + 1 <=? 12)
           && (1 <=? Date.day d)
           && (Date.day d <=? Date.getDaysInMonth (Date.year d) (Date.month d)))
    with true; [reflexivity|].
  symmetry. rewrite !andb_true_iff, !Z.leb_le. lia.
Qed.

Lemma succDay_valid (d : Date.t) : Date.valid d -> Date.valid (Date.succDay d).
Proof.
  intros (Hm & Hd & Ht). unfold Date.succDay, Date.valid.
  destruct (Z.ltb_spec (Date.day d) (Date.getDaysInMonth (Date.year d) (Date.month d))).
  - cbn. lia.
  - destruct (Z.ltb_spec (Date.month d) 11); cbn.
    + pose proof (daysInMonth_at_least (Date.year d) (Date.month d + 1)). lia.
    + pose proof (daysInMonth_at_least (Date.year d + 1) 0). lia.
Qed.

Lemma predDay_valid (d : Date.t) : Date.valid d -> Date.valid (Date.predDay d).
Proof.
  intros (Hm & Hd & Ht). unfold Date.predDay, Date.valid.
  destruct (Z.ltb_spec 1 (Date.day d)).
  - cbn. lia.
  - destruct (Z.ltb_spec 0 (Date.month d)); cbn.
    + pose proof (daysInMonth_at_least (Date.year d) (Date.month d - 1)). lia.
    + change (Date.getDaysInMonth (Date.year d - 1) 11) with 31. lia.
Qed.

Lemma addDays_valid (d : Date.t) (n : Z) : Date.valid d -> Date.valid (Date.addDays d n).
Proof.
  intros Hv. unfold Date.addDays.
  destruct (0 <=? n).
  - induction (Z.to_nat n) as [|k IH]; [exact Hv|].
    rewrite Nat.iter_succ. now apply succDay_valid.
  - induction (Z.to_nat (- n)) as [|k IH]; [exact Hv|].
    rewrite Nat.iter_succ. now apply predDay_valid.
Qed.

Lemma startOfWeek_valid (d : Date.t) : Date.valid d -> Date.valid (Date.startOfWeek d).
Proof.
  intros Hv. unfold Date.startOfWeek.
  pose proof (addDays_valid d
    (- ((if Date.getDay d <? 1 then 7 else 0) + Date.getDay d - 1)) Hv)
    as (Hm & Hd & Ht).
  unfold Date.valid. cbn [Date.year Date.month Date.day Date.time]. lia.
Qed.

Context `{Host}.

(** X21. When the clock is a valid date and the locale parser of the host
    returns valid dates, the date that a chat command resolves to is a valid
    date; and while its year has four digits, the text stored in the new
    transaction is read back by [parseISO] as that very day. *)
Theorem chat_date_reads_back (now : Date.t) (uuid lowered : jsstring) :
  Date.valid now ->
  (forall s d, parseP s now = Some d -> Date.valid d) ->
  let day := App.transactionDate now lowered in
  Date.valid day
  /\ (1 <= Date.year day <= 9999 ->
      Date.parseISO (Transaction.date (App.newTransaction now uuid lowered))
      = Some (Date.make (Date.year day) (Date.month day) (Date.day day) 0)).
Proof.
  intros Hnow Hhost day.
  assert (Hday : Date.valid day).
  { unfold day, App.transactionDate.
    destruct (Regex.group 1 (App.dateMatch lowered)) as [matched|]; [|exact Hnow].
    destruct (Js.truthy matched); [|exact Hnow].
    destruct (Js.eqb _ _); [exact Hnow|].
    destruct (Js.eqb _ _); [now apply addDays_valid|].
    destruct (Js.eqb _ _); [now apply addDays_valid|].
    destruct (Js.startsWith _ _);
      [now apply addDays_valid, startOfWeek_valid, addDays_valid|].
    destruct (Js.startsWith _ _);
      [now apply addDays_valid, startOfWeek_valid, addDays_valid|].
    destruct (Js.eqb _ _); [now apply addDays_valid|].
    destruct (Js.eqb _ _); [now apply addDays_valid, startOfWeek_valid|].
    destruct (parseP _ now) as [parsed|] eqn:E; [|exact Hnow].
    exact (Hhost _ _ E). }
  split; [exact Hday|].
  intros Hyear. unfold App.newTransaction. cbn [Transaction.date].
  now apply parseISO_formatIsoDate.
Qed.

End DateRoundTrip.

(** *** The further properties at sample inputs *)

Lemma edit_unknown_id_changes_nothing_witness :
  let st := Sample.state [Sample.entry "t1" "2025-01-02" "rent" (-9000)] [] in
  let txn := Sample.entry "t9" "2025-01-03" "coffee" (-45) in
  ~ In (Transaction.id txn) (List.map Transaction.id (App.transactions st))
  /\ App.handleEditTransaction txn st = st.
Proof.
  intros st txn.
  assert (Hn : ~ In (Transaction.id txn) (List.map Transaction.id (App.transactions st))).
  { vm_compute. intros [E|[]]. discriminate E. }
  split; [exact Hn|exact (edit_unknown_id_changes_nothing txn st Hn)].
Defined.

Lemma add_goal_then_delete_witness :
  let st := Sample.state [] [Sample.goal "g1" "bike" 100 0] in
  let goal := NewGoal.make (Js.lit "car") (Number.ofZ 100000) None in
  ~ In (Js.lit "g9") (List.map Goal.id (App.goals st))
  /\ App.handleDeleteGoal (Js.lit "g9") (snd (App.handleAddGoal (Js.lit "g9") goal st))
     = st.
Proof.
  intros st goal.
  assert (Hn : ~ In (Js.lit "g9") (List.map Goal.id (App.goals st))).
  { vm_compute. intros [E|[]]. discriminate E. }
  split; [exact Hn|exact (add_goal_then_delete (Js.lit "g9") goal st Hn)].
Defined.

Lemma digitless_command_changes_nothing_witness :
  let command := Js.lit "Add expense for groceries" in
  let st := Sample.state [Sample.entry "t1" "2025-01-02" "rent" (-9000)] [] in
  Extra.digitless command
  /\ App.transactions
       (snd (@App.handleAiCommand Sample.plainHost Sample.midApril (Js.lit "u1")
               command st))
     = App.transactions st.
Proof.
  intros command st.
  assert (Hd : Extra.digitless command).
  { unfold Extra.digitless. vm_compute. repeat constructor. }
  split; [exact Hd|].
  exact (proj1 (proj2 (proj2
    (@digitless_command_changes_nothing Sample.plainHost Sample.midApril
       (Js.lit "u1") command st Hd)))).
Defined.

Lemma reached_goal_is_dated_now_witness :
  let g := Sample.goal "g1" "bike" 100 150 in
  (inject_Z 100 <= inject_Z 150)%Q
  /\ App.projectGoal Sample.midApril [] g
     = Returned (Goal.withEta g (Some (Date.toISOString Sample.midApril))).
Proof.
  intros g.
  assert (Hle : (inject_Z 100 <= inject_Z 150)%Q) by (vm_compute; discriminate).
  split; [exact Hle|].
  exact (reached_goal_is_dated_now Sample.midApril [] g _ _ eq_refl eq_refl Hle).
Defined.



Lemma last_month_is_previous_month_witness :
  let lowered := Js.lit "how much did i spend last month" in
  Date.valid Sample.midApril
  /\ Spec.monthIndex (App.targetDate Sample.midApril lowered)
     = Spec.monthIndex Sample.midApril - 1.
Proof.
  intros lowered.
  assert (Hv : Date.valid Sample.midApril).
  { unfold Date.valid. vm_compute. repeat split; discriminate. }
  split; [exact Hv|].
  refine (proj1 (last_month_is_previous_month Sample.midApril lowered Hv _ _)).
  - vm_compute. discriminate.
  - vm_compute. reflexivity.
Defined.

Lemma isoDate_reorders_witness :
  Extra.dotless (Js.lit "11") /\ Extra.dotless (Js.lit "01")
  /\ Extra.dotless (Js.lit "2025")
  /\ Settings.isoDate (Js.lit "11" ++ 46%N :: Js.lit "01" ++ 46%N :: Js.lit "2025")
     = Js.lit "2025" ++ 45%N :: Js.lit "01" ++ 45%N :: Js.lit "11".
Proof.
  assert (Hd : Extra.dotless (Js.lit "11"))
    by (unfold Extra.dotless; vm_compute; repeat constructor; discriminate).
  assert (Hm : Extra.dotless (Js.lit "01"))
    by (unfold Extra.dotless; vm_compute; repeat constructor; discriminate).
  assert (Hy : Extra.dotless (Js.lit "2025"))
    by (unfold Extra.dotless; vm_compute; repeat constructor; discriminate).
  split; [exact Hd|split; [exact Hm|split; [exact Hy|]]].
  exact (isoDate_reorders _ _ _ Hd Hm Hy).
Defined.

Lemma isoDate_without_dots_witness :
  let date := Js.lit "2025-01-11" in
  let t := Transaction.make (Js.lit "t1") (Settings.isoDate date) (Js.lit "rent")
                            (Number.ofZ (-9000)) (Js.lit "Uncategorized") in
  Extra.dotless date
  /\ Date.parseISO date = Some (Date.make 2025 0 11 0)
  /\ Date.parseISO (Settings.isoDate date) = None.
Proof.
  intros date t.
  assert (Hd : Extra.dotless date)
    by (unfold Extra.dotless; vm_compute; repeat constructor; discriminate).
  split; [exact Hd|split; [vm_compute; reflexivity|]].
  exact (proj1 (proj2 (isoDate_without_dots date Sample.midApril t Hd eq_refl))).
Defined.

Lemma calendar_add_is_lost_witness :
  let st := Sample.state [Sample.entry "t1" "2025-01-02" "rent" (-9000)] [] in
  let f := BudgetCalendarView.makeForm true modeAdd (Some (Date.make 2025 3 10 0)) None
             BudgetCalendarView.expense (Js.lit "coffee") (Js.lit "45")
             (Js.lit "Uncategorized") [] in
  let saved := BudgetCalendarView.handleSave Sample.midApril (Js.lit "u9") f st in
  ~ In (Js.lit "u9") (List.map Transaction.id (App.transactions st))
  /\ BudgetCalendarView.alerted saved = None
  /\ BudgetCalendarView.isModalOpen (BudgetCalendarView.form saved) = false
  /\ BudgetCalendarView.state saved = st.
Proof.
  intros st f saved.
  assert (Hn : ~ In (Js.lit "u9") (List.map Transaction.id (App.transactions st))).
  { vm_compute. intros [E|[]]. discriminate E. }
  split; [exact Hn|].
  refine (proj2 (proj2 (calendar_add_is_lost Sample.midApril (Js.lit "u9") f st
                          (Date.make 2025 3 10 0) eq_refl Hn)) eq_refl eq_refl _ _).
  - discriminate.
  - vm_compute. reflexivity.
Defined.

Lemma calendar_edit_keeps_id_and_sign_witness :
  let old := Sample.entry "t1" "2025-01-02" "rent" (-9000) in
  let st := Sample.state [old] [] in
  let f := BudgetCalendarView.makeForm true modeEdit (Some (Date.make 2025 3 10 0))
             (Some (BudgetCalendarView.TransactionEvent old))
             BudgetCalendarView.expense (Js.lit "rent, April") (Js.lit "9500")
             (Js.lit "Housing") [] in
  let saved := BudgetCalendarView.handleSave Sample.midApril (Js.lit "u9") f st in
  BudgetCalendarView.alerted saved = None
  /\ exists new,
       BudgetCalendarView.state saved = App.handleEditTransaction new st
       /\ Transaction.id new = Transaction.id old
       /\ Transaction.date new = Date.formatIsoDate (Date.make 2025 3 10 0)
       /\ Transaction.description new = BudgetCalendarView.description f
       /\ Transaction.category new = BudgetCalendarView.category f
       /\ Number.ltb (Transaction.amount new) Number.zero = true.
Proof.
  intros old st f saved.
  assert (Ha : BudgetCalendarView.alerted saved = None) by (vm_compute; reflexivity).
  split; [exact Ha|].
  exact (calendar_edit_keeps_id_and_sign Sample.midApril (Js.lit "u9") f st
           (Date.make 2025 3 10 0) old eq_refl eq_refl eq_refl Ha).
Defined.

Lemma chat_date_reads_back_witness :
  let lowered := Js.lit "add expense 500 for groceries tomorrow" in
  Date.valid Sample.midApril
  /\ Date.valid (@App.transactionDate Sample.plainHost Sample.midApril lowered)
  /\ Date.parseISO
       (Transaction.date
          (@App.newTransaction Sample.plainHost Sample.midApril (Js.lit "u1") lowered))
     = Some (Date.make 2025 3 16 0).
Proof.
  intros lowered.
  assert (Hv : Date.valid Sample.midApril).
  { unfold Date.valid. vm_compute. repeat split; discriminate. }
  assert (Hhost : forall s d,
            @parseP Sample.plainHost s Sample.midApril = Some d -> Date.valid d).
  { intros s d E. discriminate E. }
  pose proof (@chat_date_reads_back Sample.plainHost Sample.midApril (Js.lit "u1")
                lowered Hv Hhost) as [Hday Hread].
  split; [exact Hv|split; [exact Hday|]].
  assert (Hyear : 1 <= Date.year (@App.transactionDate Sample.plainHost
                                    Sample.midApril lowered) <= 9999).
  { vm_compute. split; discriminate. }
  rewrite (Hread Hyear). vm_compute. reflexivity.
Defined.

Lemma edit_replaces_by_id_witness :
  let old := Sample.entry "t1" "2025-01-02" "rent" (-9000) in
  let other := Sample.entry "t2" "2025-01-03" "coffee" (-45) in
  let new := Sample.entry "t1" "2025-01-02" "rent, January" (-9500) in
  let st := Sample.state [other; old] [] in
  nth_error (App.transactions st) 1 = Some old
  /\ nth_error (App.transactions (App.handleEditTransaction new st)) 1 = Some new.
Proof.
  intros old other new st.
  assert (Hold : nth_error (App.transactions st) 1 = Some old) by reflexivity.
  split; [exact Hold|].
  rewrite (proj1 (proj2 (edit_replaces_by_id new st)) 1%nat old Hold).
  vm_compute. reflexivity.
Defined.



(** *** Predicted income *)

(** X22. Saving the calendar form never changes the goals, the currency or
    the chat, nor the length of the ledger.  The predicted income is left as
    it was or gets one entry at its end, and only in add mode for an income
    on a day after today with a source: the entry has the drawn id, the
    chosen day as its date, that source, and a positive amount. *)
Theorem calendar_save_frame (now : Date.t) (uuid : jsstring)
    (f : BudgetCalendarView.Form) (st : App.AppState) :
  let st' := BudgetCalendarView.state (BudgetCalendarView.handleSave now uuid f st) in
  App.goals st' = App.goals st
  /\ App.selectedCurrency st' = App.selectedCurrency st
  /\ App.chatHistory st' = App.chatHistory st
  /\ List.length (App.transactions st') = List.length (App.transactions st)
  /\ (App.predictedIncome st' = App.predictedIncome st
      \/ exists date p,
           App.predictedIncome st' = App.predictedIncome st ++ [p]
           /\ App.transactions st' = App.transactions st
           /\ BudgetCalendarView.modalMode f = modeAdd
           /\ BudgetCalendarView.entryType f = BudgetCalendarView.income
           /\ BudgetCalendarView.selectedDate f = Some date
           /\ BudgetCalendarView.isFutureDate now (Some date) = true
           /\ PredictedIncome.id p = uuid
           /\ PredictedIncome.date p = Date.formatIsoDate date
           /\ PredictedIncome.source p = BudgetCalendarView.source f
           /\ PredictedIncome.source p <> []
           /\ Number.gtb (PredictedIncome.amount p) Number.zero = true).
Proof.
  intros st'. unfold st', BudgetCalendarView.handleSave.
  assert (Hsame : forall a g,
    let s := BudgetCalendarView.state (BudgetCalendarView.Build_Saved a g st) in
    App.goals s = App.goals st
    /\ App.selectedCurrency s = App.selectedCurrency st
    /\ App.chatHistory s = App.chatHistory st
    /\ List.length (App.transactions s) = List.length (App.transactions st)
    /\ (App.predictedIncome s = App.predictedIncome st \/ False)).
  { intros. cbn. repeat split; auto. }
  assert (Hedit : forall a g txn,
    let s := BudgetCalendarView.state
               (BudgetCalendarView.Build_Saved a g (App.handleEditTransaction txn st)) in
    App.goals s = App.goals st
    /\ App.selectedCurrency s = App.selectedCurrency st
    /\ App.chatHistory s = App.chatHistory st
    /\ List.length (App.transactions s) = List.length (App.transactions st)
    /\ App.predictedIncome s = App.predictedIncome st).
  { intros. cbn [BudgetCalendarView.state].
    destruct st as [ledger goals income currency chat]. cbn.
    repeat split; auto. apply List.length_map. }
  destruct (BudgetCalendarView.selectedDate f) as [date|] eqn:Hdate;
    [|cbn; repeat split; auto].
  destruct (_ || _) eqn:Hvalid; [cbn; repeat split; auto|].
  destruct (positive_amount _ Hvalid) as [Hpos _].
  destruct (BudgetCalendarView.modalMode f) eqn:Hmode.
  - destruct (BudgetCalendarView.entryType f) eqn:Htype; cbn [andb].
    + destruct (BudgetCalendarView.isFutureDate now (Some date)) eqn:Hfuture.
      * destruct (Js.truthy (BudgetCalendarView.source f)) eqn:Hsrc; cbn [negb];
          [|cbn; repeat split; auto].
        cbn. repeat split; auto. right. exists date. eexists.
        split; [reflexivity|]. cbn. repeat split; auto.
        now apply truthy_nonempty.
      * destruct (negb _); [cbn; repeat split; auto|].
        destruct (Hedit None (BudgetCalendarView.close f)
                    (Transaction.make uuid (Date.formatIsoDate date)
                       (BudgetCalendarView.description f)
                       (Number.parseFloat (BudgetCalendarView.amount f))
                       (BudgetCalendarView.category f)))
          as (H1 & H2 & H3 & H4 & H5).
        repeat split; auto.
    + destruct (negb _); [cbn; repeat split; auto|].
      destruct (Hedit None (BudgetCalendarView.close f)
                  (Transaction.make uuid (Date.formatIsoDate date)
                     (BudgetCalendarView.description f)
                     (Number.neg (Number.parseFloat (BudgetCalendarView.amount f)))
                     (BudgetCalendarView.category f)))
        as (H1 & H2 & H3 & H4 & H5).
      repeat split; auto.
  - destruct (BudgetCalendarView.selectedEvent f) as [[resource|resource]|];
      [|destruct (negb _); cbn; repeat split; auto|cbn; repeat split; auto].
    destruct (negb _); [cbn; repeat split; auto|].
    match goal with
    | |- context [App.handleEditTransaction ?txn st] =>
        destruct (Hedit None (BudgetCalendarView.close f) txn)
          as (H1 & H2 & H3 & H4 & H5)
    end.
    repeat split; auto.
Qed.
